(** * convert_p8.py: PICO-8 cartridge text to a C header

    A shallow embedding of [convert_p8_to_header] and of the Python
    built-ins it calls, followed by the properties of the conversion.

    Text is a list of characters; a character is a code point below 256
    (the Latin-1 range), which is what [ascii] holds.  Python integers are
    [Z].  The file system, standard output and standard error are the
    fields of a [World] that the program transforms. *)

From Stdlib Require Import ZArith List Ascii String Lia Bool.
From Stdlib Require DecimalString HexadecimalString.
From stdpp Require Import gmap strings list fin_maps.
Import ListNotations.
Local Open Scope Z_scope.

Abbreviation text := (list ascii) (only parsing).

(** String literals of the source are written as Rocq strings. *)
Coercion list_ascii_of_string : string >-> list.

(** The character written ['\n'] in the source. *)
Definition nl : ascii := "010"%char.

(** ** Python built-ins used by the program *)

Module Py.

(** [len(x)] *)
Definition len {A} (l : list A) : Z := Z.of_nat (length l).

(** [s.startswith(prefix)] *)
Fixpoint startswith (s prefix : text) : bool :=
  match prefix, s with
  | [], _ => true
  | _ :: _, [] => false
  | p :: prefix', c :: s' => Ascii.eqb c p && startswith s' prefix'
  end.

(** [s.find(sub)]: the lowest index where [sub] occurs, [-1] when there is
    none.  [find_from] scans the suffix that starts at offset [i]. *)
Fixpoint find_from (s sub : text) (i : Z) : Z :=
  if startswith s sub then i
  else match s with
       | [] => -1
       | _ :: s' => find_from s' sub (i + 1)
       end.

Definition find (s sub : text) : Z := find_from s sub 0.

(** An index of a slice, as Python normalises it against the length [n]:
    a negative index counts from the end, and both ends are clamped. *)
Definition norm_index (n i : Z) : Z :=
  if i <? 0 then Z.max (i + n) 0 else Z.min i n.

(** [l[lo:hi]] *)
Definition slice {A} (l : list A) (lo hi : Z) : list A :=
  let lo' := norm_index (len l) lo in
  let hi' := norm_index (len l) hi in
  take (Z.to_nat (hi' - lo')) (drop (Z.to_nat lo') l).

(** [s.split(sep)] for a separator of one character. *)
Fixpoint split (s : text) (sep : ascii) : list text :=
  match s with
  | [] => [[]]
  | c :: s' =>
      if Ascii.eqb c sep then [] :: split s' sep
      else match split s' sep with
           | line :: lines => (c :: line) :: lines
           | [] => [[c]]
           end
  end.

(** [sep.join(parts)] *)
Fixpoint join (sep : text) (parts : list text) : text :=
  match parts with
  | [] => []
  | [p] => p
  | p :: rest => p ++ sep ++ join sep rest
  end.

(** [c.isspace()] on the code points below 256: tab to carriage return,
    the four separators 28 to 31, space, NEL (133) and no-break space
    (160).  This is the set [strip] removes. *)
Definition isspace (c : ascii) : bool :=
  let n := N_of_ascii c in
  (((9 <=? n) && (n <=? 13)) || ((28 <=? n) && (n <=? 32))
   || (n =? 133) || (n =? 160))%N.

Fixpoint lstrip (s : text) : text :=
  match s with
  | [] => []
  | c :: s' => if isspace c then lstrip s' else s
  end.

Definition rstrip (s : text) : text := rev (lstrip (rev s)).

(** [s.strip()] *)
Definition strip (s : text) : text := rstrip (lstrip s).

(** *** [int(s, 16)] *)

(** The value of a character as a digit of base 16. *)
Definition hex_digit_value (c : ascii) : option Z :=
  let n := Z.of_N (N_of_ascii c) in
  if (48 <=? n) && (n <=? 57) then Some (n - 48)
  else if (97 <=? n) && (n <=? 102) then Some (n - 87)
  else if (65 <=? n) && (n <=? 70) then Some (n - 55)
  else None.

Definition is_hex_digit (c : ascii) : bool :=
  match hex_digit_value c with Some _ => true | None => false end.

(** The white space [int] skips around a numeral: the separators 28 to
    31 are not part of it. *)
Definition int_space (c : ascii) : bool :=
  let n := N_of_ascii c in
  (((9 <=? n) && (n <=? 13)) || (n =? 32) || (n =? 133) || (n =? 160))%N.

Fixpoint skip_space (s : text) : text :=
  match s with
  | [] => []
  | c :: s' => if int_space c then skip_space s' else s
  end.

(** The digits of a numeral: hexadecimal digits, with single underscores
    between them.  Returns the value read, the number of digits and the
    rest of the text; [None] is a syntax error (two underscores in a row,
    or an underscore at the end of the digits). *)
Fixpoint scan_digits (s : text) (prev_underscore : bool) (acc : Z) (digits : nat)
  : option (Z * nat * text) :=
  match s with
  | [] => if prev_underscore then None else Some (acc, digits, [])
  | c :: s' =>
      if Ascii.eqb c "_" then
        if prev_underscore then None else scan_digits s' true acc digits
      else
        match hex_digit_value c with
        | Some d => scan_digits s' false (acc * 16 + d) (S digits)
        | None => if prev_underscore then None else Some (acc, digits, s)
        end
  end.

(** [int(s, 16)]; [None] stands for [ValueError]. *)
Definition int16 (s : text) : option Z :=
  let s := skip_space s in
  let '(sign, s) :=
    match s with
    | c :: s' =>
        if Ascii.eqb c "+" then (1, s')
        else if Ascii.eqb c "-" then (-1, s')
        else (1, s)
    | [] => (1, s)
    end in
  let s :=
    match s with
    | z :: x :: s' =>
        if Ascii.eqb z "0" && (Ascii.eqb x "x" || Ascii.eqb x "X") then
          match s' with
          | u :: s'' => if Ascii.eqb u "_" then s'' else s'
          | [] => s'
          end
        else s
    | _ => s
    end in
  if startswith s "_" then None
  else
    match scan_digits s false 0 0 with
    | None => None
    | Some (v, digits, rest) =>
        match digits, skip_space rest with
        | S _, [] => Some (sign * v)
        | _, _ => None
        end
    end.

(** *** Rendering integers *)

(** [str(n)] *)
Definition str (n : Z) : text :=
  DecimalString.NilZero.string_of_int (Z.to_int n).

(** The lowercase hexadecimal digits of a natural number. *)
Definition hex (n : Z) : text :=
  HexadecimalString.NilZero.string_of_uint (N.to_hex_uint (Z.to_N n)).

(** [format(b, '02x')]: the sign, then the digits padded with zeros so
    that the whole is at least two characters wide. *)
Definition format_02x (b : Z) : text :=
  if b <? 0 then "-" ++ hex (- b)
  else repeat "0"%char (2 - length (hex b)) ++ hex b.

(** [repr(l)] of a list of integers, as an f-string renders it. *)
Definition repr_list (l : list Z) : text :=
  "[" ++ join ", " (map str l) ++ "]".

(** [range(start, stop, step)] for a positive step. *)
Definition range3 (start stop step : Z) : list Z :=
  map (fun k => start + step * Z.of_nat k)
      (seq 0 (Z.to_nat ((stop - start + step - 1) / step))).

(** [range(start, stop)] *)
Definition range (start stop : Z) : list Z := range3 start stop 1.

(** [enumerate(l)], counting from [i]. *)
Fixpoint enumerate_from {A} (i : Z) (l : list A) : list (Z * A) :=
  match l with
  | [] => []
  | x :: l' => (i, x) :: enumerate_from (i + 1) l'
  end.

Definition enumerate {A} (l : list A) : list (Z * A) := enumerate_from 0 l.

End Py.

(** ** The world of the program: files, standard output, standard error

    [files] maps a path to the text of the file there.  Opening a path
    that holds no file for reading raises; opening for writing and
    writing always succeed.  What is written through a file object is in
    the file once the [with] block is left, which is all the program can
    see of it. *)

Record World := mkWorld {
  files : gmap string (list ascii);
  stdout : list ascii;
  stderr : list ascii
}.

(** A statement that cannot fail transforms the world. *)
Abbreviation stmt := (World -> World) (only parsing).

Definition seq_stmt (c1 c2 : stmt) : stmt := fun w => c2 (c1 w).
Notation "c1 ;; c2" := (seq_stmt c1 c2) (at level 100, c2 at level 200, right associativity).

Definition skip : stmt := fun w => w.

(** [if b: c] *)
Definition when (b : bool) (c : stmt) : stmt := if b then c else skip.

(** [for x in l: body] *)
Definition for_each {A} (l : list A) (body : A -> stmt) : stmt :=
  fun w => fold_left (fun w x => body x w) l w.

(** [print(s)] *)
Definition print (s : text) : stmt := fun w =>
  {| files := files w; stdout := stdout w ++ s ++ [nl]; stderr := stderr w |}.

(** [open(path, 'w')]: the file is created, or emptied when it exists. *)
Definition open_w (path : string) : stmt := fun w =>
  {| files := <[path := []]> (files w); stdout := stdout w; stderr := stderr w |}.

(** [f.write(s)] on the file opened at [f]. *)
Definition write (f : string) (s : text) : stmt := fun w =>
  {| files := <[f := default [] (files w !! f) ++ s]> (files w);
     stdout := stdout w; stderr := stderr w |}.

Inductive exn := FileNotFoundError (path : string).

Inductive outcome := Returned | Raised (e : exn).

(** ** The program *)

(** [while len(l) < n: l.append(x)], as the [k] appends it performs. *)
Fixpoint append_n {A} (k : nat) (x : A) (l : list A) : list A :=
  match k with
  | O => l
  | S k' => append_n k' x (l ++ [x])
  end.

Definition pad_while {A} (l : list A) (n : nat) (x : A) : list A :=
  append_n (n - length l) x l.

(** [[line.strip() for line in lines
      if line.strip() and not line.startswith('__')]] *)
Fixpoint content_lines (lines : list text) : list text :=
  match lines with
  | [] => []
  | line :: rest =>
      match Py.strip line with
      | [] => content_lines rest
      | _ :: _ =>
          if negb (Py.startswith line "__")
          then Py.strip line :: content_lines rest
          else content_lines rest
      end
  end.

Definition gfx_start (content : text) : Z := Py.find content "__gfx__".
Definition map_start (content : text) : Z := Py.find content "__map__".
Definition label_start (content : text) : Z := Py.find content "__label__".
Definition sfx_start (content : text) : Z := Py.find content "__sfx__".

Definition gfx_end (content : text) : Z :=
  if negb (label_start content =? -1) && (label_start content <? map_start content)
  then label_start content
  else map_start content.

(** The two statements that turn a slice of the document into the lines
    of a section: [raw.split('\n')[1:]], then the comprehension. *)
Definition line_filter (raw : text) : list text :=
  let lines := Py.split raw nl in
  content_lines (Py.slice lines 1 (Py.len lines)).

Definition gfx_section (content : text) : list text :=
  line_filter (Py.slice content (gfx_start content) (gfx_end content)).

Definition map_end (content : text) : Z :=
  if negb (sfx_start content =? -1) then sfx_start content else Py.len content.

Definition map_section (content : text) : list text :=
  line_filter (Py.slice content (map_start content) (map_end content)).

(** The body of [for c in row]: one pixel of the spritesheet. *)
Definition decode_pixel (c : ascii) : text :=
  match Py.int16 [c] with
  | Some v => Py.str v
  | None => "0"
  end.

(** The list [pixels] of one spritesheet row, when it is written. *)
Definition row_pixels (row : text) : list text :=
  let row := Py.slice row 0 128 in
  let pixels := fold_left (fun pixels c => pixels ++ [decode_pixel c]) row [] in
  pad_while pixels 128 ("0" : text).

(** The body of [for row_idx, row in enumerate(gfx_section[:128])]. *)
Definition write_gfx_row (f : string) (ir : Z * list ascii) : stmt :=
  let '(row_idx, row) := ir in
  write f ("    {" ++ Py.join "," (row_pixels row) ++ "}") ;;
  when (row_idx <? 127) (write f ",") ;;
  write f [nl].

(** The body of [for row_idx in range(len(gfx_section), 128)]. *)
Definition write_fill_row (f : string) (row_idx : Z) : stmt :=
  let zeros := Py.join "," (repeat ("0" : text) 128) in
  write f ("    {" ++ zeros ++ "}") ;;
  when (row_idx <? 127) (write f ",") ;;
  write f [nl].

(** The body of [for i in range(0, len(row), 2)]. *)
Definition scan_pair (row : text) (map_bytes : list Z) (i : Z) : list Z :=
  if i + 1 <? Py.len row then
    match Py.int16 (Py.slice row i (i + 2)) with
    | Some byte_val => map_bytes ++ [byte_val]
    | None => map_bytes ++ [0]
    end
  else map_bytes.

(** The body of [for row in map_section]. *)
Definition scan_row (map_bytes : list Z) (row : text) : list Z :=
  let row := Py.strip row in
  fold_left (scan_pair row) (Py.range3 0 (Py.len row) 2) map_bytes.

(** The list [map_bytes] after the padding loop. *)
Definition decode_map (map_section : list text) : list Z :=
  let map_bytes := fold_left scan_row map_section [] in
  pad_while map_bytes 4096 0.

(** The body of [for i in range(0, 0x1000, 16)]. *)
Definition write_map_line (f : string) (map_bytes : list Z) (i : Z) : stmt :=
  let bytes_str :=
    Py.join "," (map (fun b => "0x" ++ Py.format_02x b) (Py.slice map_bytes i (i + 16))) in
  write f ("    " ++ bytes_str) ;;
  when (i + 16 <? 4096) (write f ",") ;;
  write f [nl].

Definition convert_p8_to_header (p8_file output_file : string) (w : World)
  : outcome * World :=
  match files w !! p8_file with
  | None => (Raised (FileNotFoundError p8_file), w)
  | Some content =>
      if gfx_start content =? -1 then
        (Returned, print "Error: __gfx__ section not found" w)
      else if map_start content =? -1 then
        (Returned, print "Error: __map__ section not found" w)
      else
        let gfx_section := gfx_section content in
        let map_section := map_section content in
        let map_bytes := decode_map map_section in
        let f := output_file in
        (Returned,
         (print ("Found " ++ Py.str (Py.len gfx_section) ++ " GFX lines") ;;
          print ("Found " ++ Py.str (Py.len map_section) ++ " MAP lines") ;;
          open_w output_file ;;
          write f ("/*" ++ [nl]) ;;
          write f (" * Hyperspace Game Data - PicoSystem Port" ++ [nl]) ;;
          write f (" * Auto-generated from hyperspace.lua.p8" ++ [nl]) ;;
          write f (" */" ++ [nl; nl]) ;;
          write f ("#ifndef HYPERSPACE_DATA_H" ++ [nl]) ;;
          write f ("#define HYPERSPACE_DATA_H" ++ [nl; nl]) ;;
          write f ("#include <stdint.h>" ++ [nl; nl]) ;;
          write f ("// Spritesheet data (128x128 pixels, 4-bit palette indices)" ++ [nl]) ;;
          write f ("static const uint8_t hyperspace_spritesheet[128][128] = {" ++ [nl]) ;;
          for_each (Py.enumerate (Py.slice gfx_section 0 128)) (write_gfx_row f) ;;
          for_each (Py.range (Py.len gfx_section) 128) (write_fill_row f) ;;
          write f ("};" ++ [nl; nl]) ;;
          write f ("// Map memory data (4KB, contains mesh definitions)" ++ [nl]) ;;
          write f ("static const uint8_t hyperspace_map[0x1000] = {" ++ [nl]) ;;
          print ("Map bytes extracted: " ++ Py.str (Py.len map_bytes)
                 ++ " (first 16: " ++ Py.repr_list (Py.slice map_bytes 0 16) ++ ")") ;;
          for_each (Py.range3 0 4096 16) (write_map_line f map_bytes) ;;
          write f ("};" ++ [nl; nl]) ;;
          write f ("#endif // HYPERSPACE_DATA_H" ++ [nl]) ;;
          print ("Generated " ++ output_file)) w)
  end.

Definition p8_file : string :=
  "/home/terada/trees/itsmeterada/pico/hyperspace/hyperspace.lua.p8".
Definition output_file : string :=
  "/home/terada/trees/itsmeterada/pico/picosystem_hyperspace/hyperspace_data.h".

(** What the interpreter writes to standard error for an exception nobody
    caught (the traceback is left out, only its last line is kept). *)
Definition uncaught (e : exn) : text :=
  match e with
  | FileNotFoundError path =>
      "FileNotFoundError: [Errno 2] No such file or directory: '" ++ path ++ "'" ++ [nl]
  end.

(** The script run as a program: the exit status is 0 when the call
    returns and 1 when an exception leaves it. *)
Definition main (w : World) : Z * World :=
  match convert_p8_to_header p8_file output_file w with
  | (Returned, w') => (0, w')
  | (Raised e, w') =>
      (1, {| files := files w'; stdout := stdout w'; stderr := stderr w' ++ uncaught e |})
  end.

(** ** Reference definitions

    Closed forms of what the loops compute, and the specification's own
    wording of the section boundaries.  The lemmas below relate each of
    them to the program. *)

(** The line filter's test on a raw line. *)
Definition kept (line : text) : bool :=
  match Py.strip line with
  | [] => false
  | _ :: _ => negb (Py.startswith line "__")
  end.

(** The number of characters of the first line of [s], its newline
    included. *)
Fixpoint line_length (s : text) : nat :=
  match s with
  | [] => O
  | c :: s' => if Ascii.eqb c nl then 1%nat else S (line_length s')
  end.

(** The offset just after the line that holds offset [i]. *)
Definition after_line (content : text) (i : Z) : Z :=
  i + Z.of_nat (line_length (drop (Z.to_nat i) content)).

(** A section as the specification words it: the content lines of the
    text from just after the marker's line up to offset [stop]. *)
Definition spec_section (content : text) (marker stop : Z) : list text :=
  content_lines (Py.split (Py.slice content (after_line content marker) stop) nl).

(** [sub] occurs in [s] at offset [i]. *)
Definition occurs_at (s sub : text) (i : Z) : Prop :=
  0 <= i <= Py.len s /\ Py.startswith (drop (Z.to_nat i) s) sub = true.

(** A row of the spritesheet: the decoded characters, then zeros. *)
Definition pixel_row (row : text) : list text :=
  map decode_pixel (take 128 row)
  ++ repeat ("0" : text) (128 - length (take 128 row)).

Definition zero_row : list text := repeat ("0" : text) 128.

(** The rows of the spritesheet in the order they are written. *)
Definition pixel_matrix (gfx_section : list text) : list (list text) :=
  map pixel_row (take 128 gfx_section)
  ++ repeat zero_row (128 - length gfx_section).

(** The complete two-character tokens of a line, left to right. *)
Fixpoint pairs (row : text) : list text :=
  match row with
  | a :: b :: rest => [a; b] :: pairs rest
  | _ => []
  end.

(** The byte a token stands for. *)
Definition token_byte (tok : text) : Z :=
  match Py.int16 tok with
  | Some v => v
  | None => 0
  end.

(** The bytes read from the map section, before the padding. *)
Definition scanned_bytes (map_section : list text) : list Z :=
  concat (map (fun row => map token_byte (pairs (Py.strip row))) map_section).

(** The first [k] groups of sixteen of a list. *)
Fixpoint chunks16 {A} (k : nat) (l : list A) : list (list A) :=
  match k with
  | O => []
  | S k' => take 16 l :: chunks16 k' (drop 16 l)
  end.

(** The entries of the map array that reach the header. *)
Definition map_entries (map_bytes : list Z) : list Z :=
  concat (chunks16 256 map_bytes).

Definition render_byte (b : Z) : text := "0x" ++ Py.format_02x b.

(** One written line: its text, a comma when asked for, a newline. *)
Definition line_text (body : text) (comma : bool) : text :=
  body ++ (if comma then "," else []) ++ [nl].

(** A row of pixels between its braces. *)
Definition row_body (pixels : list text) : text :=
  "    {" ++ Py.join "," pixels ++ "}".

(** A line of the map array. *)
Definition bytes_body (line : list Z) : text :=
  "    " ++ Py.join "," (map render_byte line).

(** Rows between braces, one per line, a comma after each but the last. *)
Definition render_rows (rows : list (list text)) : text :=
  Py.join ("," ++ [nl]) (map row_body rows) ++ [nl].

(** Lines of values, a comma after each line but the last. *)
Definition render_lines (lines : list (list Z)) : text :=
  Py.join ("," ++ [nl]) (map bytes_body lines) ++ [nl].

Definition banner : text :=
  "/*" ++ [nl]
  ++ " * Hyperspace Game Data - PicoSystem Port" ++ [nl]
  ++ " * Auto-generated from hyperspace.lua.p8" ++ [nl]
  ++ " */" ++ [nl; nl]
  ++ "#ifndef HYPERSPACE_DATA_H" ++ [nl]
  ++ "#define HYPERSPACE_DATA_H" ++ [nl; nl]
  ++ "#include <stdint.h>" ++ [nl; nl].

Definition spritesheet_open : text :=
  "// Spritesheet data (128x128 pixels, 4-bit palette indices)" ++ [nl]
  ++ "static const uint8_t hyperspace_spritesheet[128][128] = {" ++ [nl].

Definition map_open : text :=
  "// Map memory data (4KB, contains mesh definitions)" ++ [nl]
  ++ "static const uint8_t hyperspace_map[0x1000] = {" ++ [nl].

Definition array_close : text := "};" ++ [nl; nl].

Definition guard_close : text := "#endif // HYPERSPACE_DATA_H" ++ [nl].

(** The header for a given matrix of pixels and given lines of bytes. *)
Definition header_text (rows : list (list text)) (lines : list (list Z)) : text :=
  banner ++ spritesheet_open ++ render_rows rows ++ array_close
  ++ map_open ++ render_lines lines ++ array_close ++ guard_close.

(** The header of a document. *)
Definition header_of (content : text) : text :=
  header_text (pixel_matrix (gfx_section content))
              (chunks16 256 (decode_map (map_section content))).

(** What a successful run prints. *)
Definition progress_log (content : text) (output_file : string) : text :=
  let map_bytes := decode_map (map_section content) in
  "Found " ++ Py.str (Py.len (gfx_section content)) ++ " GFX lines" ++ [nl]
  ++ "Found " ++ Py.str (Py.len (map_section content)) ++ " MAP lines" ++ [nl]
  ++ "Map bytes extracted: " ++ Py.str (Py.len map_bytes)
  ++ " (first 16: " ++ Py.repr_list (Py.slice map_bytes 0 16) ++ ")" ++ [nl]
  ++ "Generated " ++ output_file ++ [nl].

(** The characters that are digits of base 16. *)
Definition hex_chars : text := "0123456789abcdefABCDEF".

(** A written pixel is the decimal numeral of a value from 0 to 15. *)
Definition palette_index (px : text) : Prop :=
  exists v, 0 <= v <= 15 /\ px = Py.str v.

(** Every character. *)
Definition all_chars : text := map ascii_of_nat (seq 0 256).

(** What a token of two characters stands for, case by case: two digits
    give a byte; a digit after a plus sign or next to white space gives
    its value; a digit after a minus sign gives its value negated;
    anything else gives 0. *)
Definition pair_value (a b : ascii) : Z :=
  match Py.hex_digit_value a, Py.hex_digit_value b with
  | Some x, Some y => 16 * x + y
  | None, Some y =>
      if Ascii.eqb a "+" || Py.int_space a then y
      else if Ascii.eqb a "-" then - y
      else 0
  | Some x, None => if Py.int_space b then x else 0
  | None, None => 0
  end.


(** The two lowercase hexadecimal digits of a byte. *)
Definition hex_lower : text := "0123456789abcdef".

Definition two_hex (b : Z) : text :=
  [nth (Z.to_nat (b / 16)) hex_lower "0"%char;
   nth (Z.to_nat (b mod 16)) hex_lower "0"%char].

(** ** Sample documents *)

(** A cartridge with the four markers in their usual order; its map line
    has an odd number of characters. *)
Definition sample_doc : text :=
  "__gfx__" ++ [nl] ++ "0123" ++ [nl] ++ "fg" ++ [nl]
  ++ "__label__" ++ [nl] ++ "77" ++ [nl]
  ++ "__map__" ++ [nl] ++ "aabbc" ++ [nl]
  ++ "__sfx__" ++ [nl] ++ "0101" ++ [nl].

(** A cartridge whose [__sfx__] marker stands in the middle of a line,
    before [__map__]. *)
Definition sfx_first_doc : text :=
  "__gfx__" ++ [nl] ++ "01" ++ [nl]
  ++ "see __sfx__ below" ++ [nl]
  ++ "__map__" ++ [nl] ++ "ffee" ++ [nl].

(** A cartridge whose map section holds a signed token. *)
Definition signed_doc : text :=
  "__gfx__" ++ [nl] ++ "01" ++ [nl] ++ "__map__" ++ [nl] ++ "-1" ++ [nl].

(** A document without the [__map__] marker. *)
Definition no_map_doc : text := "__gfx__" ++ [nl] ++ "01" ++ [nl].

(** A world that holds [doc] at the input path, and an older header at
    the output path. *)
Definition world_of (doc : text) : World :=
  mkWorld (<[p8_file := doc]> (<[output_file := ("old header" : text)]> ∅)) [] [].

(** ** Cartridges built from their sections *)

Definition gfx_marker : text := "__gfx__".
Definition label_marker : text := "__label__".
Definition map_marker : text := "__map__".
Definition sfx_marker : text := "__sfx__".

(** An offset moved right by [n], the answer [-1] left as it is. *)
Definition shift (n k : Z) : Z := if k =? -1 then -1 else n + k.

(** The line of a marker. *)
Definition marker_line (marker : text) : text := marker ++ [nl].

(** A cartridge with the four sections in their usual order: [pre] is
    what stands before [__gfx__], then come the lines of the gfx, label,
    map and sfx sections, each after the line of its marker. *)
Definition cartridge (pre G L M S : text) : text :=
  pre ++ marker_line gfx_marker ++ G ++ marker_line label_marker ++ L
  ++ marker_line map_marker ++ M ++ marker_line sfx_marker ++ S.

Definition gff_marker : text := "__gff__".

(** A cartridge without label and sfx sections, in which a [__gff__]
    section follows the map section. *)
Definition gff_cartridge (pre G M F : text) : text :=
  pre ++ marker_line gfx_marker ++ G ++ marker_line map_marker ++ M
  ++ marker_line gff_marker ++ F.

(** A text made of whole lines: it is empty or ends with a newline. *)
Definition whole_lines (s : text) : bool :=
  match rev s with
  | [] => true
  | c :: _ => Ascii.eqb c nl
  end.

(** None of the markers occurs in the text. *)
Definition absent (markers : list text) (s : text) : Prop :=
  Forall (fun marker => Py.find s marker = -1) markers.

(** The parts of a cartridge that has a code section with underscores
    before [__gfx__], and other sections after [__sfx__]. *)
Definition part_pre : text :=
  "pico-8 cartridge" ++ [nl] ++ "__lua__" ++ [nl] ++ "a_b=1" ++ [nl].
Definition part_gfx : text := "0123" ++ [nl] ++ "fg" ++ [nl].
Definition part_label : text := "77" ++ [nl].
Definition part_map : text := "aabbc" ++ [nl].
Definition part_sfx : text :=
  "0101" ++ [nl] ++ "__music__" ++ [nl] ++ "__map__" ++ [nl] ++ "ee".

(** A cartridge whose map comes first. *)
Definition map_first_doc : text :=
  marker_line map_marker ++ "ff" ++ [nl] ++ marker_line gfx_marker ++ "01" ++ [nl].

(** A hexadecimal digit in lowercase. *)
Definition lower_hex (c : ascii) : ascii :=
  let n := N_of_ascii c in
  if ((65 <=? n) && (n <=? 70))%N then ascii_of_N (n + 32) else c.

(** The number of newlines of a text. *)
Definition line_count (s : text) : nat := count_occ Ascii.ascii_dec s nl.

(** A gfx section of 128 lines of 128 digits, and a map section of 256
    lines of sixteen bytes. *)
Definition full_gfx : list text := repeat (repeat "7"%char 128) 128.
Definition full_map : list text := repeat (repeat "a"%char 32) 256.

(** ** Facts about the built-ins *)

Section slice_facts.
Context {A : Type}.
Implicit Types l : list A.

(** With both indices non-negative a slice is a [take] of a [drop]. *)
Lemma slice_nonneg l lo hi :
  0 <= lo -> 0 <= hi ->
  Py.slice l lo hi = take (Z.to_nat hi - Z.to_nat lo) (drop (Z.to_nat lo) l).
Proof.
  intros Hlo Hhi. unfold Py.slice, Py.norm_index, Py.len.
  rewrite (proj2 (Z.ltb_ge lo 0)), (proj2 (Z.ltb_ge hi 0)) by lia.
  destruct (Z.le_gt_cases lo (Z.of_nat (length l))) as [H|H].
  - rewrite (Z.min_l lo) by lia.
    destruct (Z.le_gt_cases hi (Z.of_nat (length l))) as [H'|H'].
    + rewrite (Z.min_l hi) by lia. f_equal. lia.
    + rewrite (Z.min_r hi) by lia.
      rewrite !take_ge; [done | |]; rewrite length_drop; lia.
  - rewrite (Z.min_r lo) by lia. rewrite !drop_ge by lia.
    by rewrite !take_nil.
Qed.

Lemma slice_prefix l (n : nat) : Py.slice l 0 (Z.of_nat n) = take n l.
Proof.
  rewrite slice_nonneg by lia. simpl. rewrite Nat2Z.id. f_equal. lia.
Qed.

Lemma slice_tail l : Py.slice l 1 (Py.len l) = drop 1 l.
Proof.
  unfold Py.len. rewrite slice_nonneg by lia.
  apply take_ge. rewrite length_drop. lia.
Qed.

Lemma slice_window l (i : nat) (n : nat) :
  Py.slice l (Z.of_nat i) (Z.of_nat i + Z.of_nat n) = take n (drop i l).
Proof.
  rewrite slice_nonneg by lia. rewrite Nat2Z.id. f_equal. lia.
Qed.

Lemma slice_empty l lo hi : 0 <= hi <= lo -> Py.slice l lo hi = [].
Proof.
  intros H. rewrite slice_nonneg by lia.
  replace (Z.to_nat hi - Z.to_nat lo)%nat with O by lia. done.
Qed.
End slice_facts.

Lemma find_from_unfold s sub i :
  Py.find_from s sub i =
  if Py.startswith s sub then i
  else match s with
       | [] => -1
       | _ :: s' => Py.find_from s' sub (i + 1)
       end.
Proof. by destruct s. Qed.

(** [find] returns the first offset at which the text occurs, and [-1]
    exactly when it occurs nowhere. *)
Lemma find_from_spec s sub i :
  (Py.find_from s sub i = -1 /\
   forall k, (k <= length s)%nat -> Py.startswith (drop k s) sub = false)
  \/ (exists k : nat,
        Py.find_from s sub i = i + Z.of_nat k /\ (k <= length s)%nat /\
        Py.startswith (drop k s) sub = true /\
        forall j, (j < k)%nat -> Py.startswith (drop j s) sub = false).
Proof.
  revert i. induction s as [|c s IH]; intros i.
  - rewrite find_from_unfold. destruct (Py.startswith [] sub) eqn:E.
    + right. exists O. simpl. split; [lia|]. split; [lia|]. split; [done|lia].
    + left. split; [done|]. intros k Hk. by rewrite drop_nil.
  - rewrite find_from_unfold. destruct (Py.startswith (c :: s) sub) eqn:E.
    + right. exists O. simpl. split; [lia|]. split; [lia|]. split; [done|lia].
    + destruct (IH (i + 1)) as [[Hn Hall] | (k & Hk & Hle & Hat & Hbefore)].
      * left. split; [done|]. intros [|k] Hk; simpl; [done|]. apply Hall.
        simpl in Hk. lia.
      * right. exists (S k). split; [lia|]. split; [simpl; lia|]. split; [done|].
        intros [|j] Hj; simpl; [done|]. apply Hbefore. lia.
Qed.

Lemma find_bounds s sub : Py.find s sub = -1 \/ 0 <= Py.find s sub <= Py.len s.
Proof.
  unfold Py.find, Py.len.
  destruct (find_from_spec s sub 0) as [[Hn _] | (k & Hk & Hle & _)]; [by left|].
  right. lia.
Qed.

Lemma find_occurs s sub :
  Py.find s sub <> -1 ->
  occurs_at s sub (Py.find s sub)
  /\ forall j, 0 <= j < Py.find s sub ->
               Py.startswith (drop (Z.to_nat j) s) sub = false.
Proof.
  unfold Py.find, occurs_at, Py.len. intros Hne.
  destruct (find_from_spec s sub 0) as [[Hn _] | (k & Hk & Hle & Hat & Hbefore)];
    [done|].
  rewrite Hk. replace (Z.to_nat (0 + Z.of_nat k)) with k by lia.
  split; [split; [lia|done]|].
  intros j Hj. apply Hbefore. lia.
Qed.

Lemma find_absent s sub :
  Py.find s sub = -1 ->
  forall j, 0 <= j <= Py.len s -> Py.startswith (drop (Z.to_nat j) s) sub = false.
Proof.
  unfold Py.find, Py.len. intros Hn j Hj.
  destruct (find_from_spec s sub 0) as [[_ Hall] | (k & Hk & _)]; [|lia].
  apply Hall. lia.
Qed.

(** [split] always returns at least one line. *)
Lemma split_cons_view s sep : exists line lines, Py.split s sep = line :: lines.
Proof.
  destruct s as [|c s]; simpl; [by eexists _, _|].
  destruct (Ascii.eqb c sep); [by eexists _, _|].
  destruct (Py.split s sep); by eexists _, _.
Qed.

Lemma split_step c s sep :
  Ascii.eqb c sep = false ->
  exists line lines,
    Py.split s sep = line :: lines /\ Py.split (c :: s) sep = (c :: line) :: lines.
Proof.
  intros Hc. destruct (split_cons_view s sep) as (line & lines & E).
  exists line, lines. split; [done|]. simpl. by rewrite Hc, E.
Qed.

(** Joining the lines of a text with the separator gives the text back. *)
Lemma join_split s sep : Py.join [sep] (Py.split s sep) = s.
Proof.
  induction s as [|c s IH]; [done|].
  destruct (Ascii.eqb c sep) eqn:Hc.
  - apply Ascii.eqb_eq in Hc as ->.
    destruct (split_cons_view s sep) as (line & lines & E).
    assert (Py.split (sep :: s) sep = [] :: line :: lines) as ->
      by (simpl; by rewrite Ascii.eqb_refl, E).
    rewrite E in IH.
    change (Py.join [sep] ([] :: line :: lines))
      with (sep :: Py.join [sep] (line :: lines)).
    by rewrite IH.
  - destruct (split_step c s sep Hc) as (line & lines & E & E').
    rewrite E'. rewrite E in IH. destruct lines; simpl in *; by rewrite IH.
Qed.

(** No line of a split holds the separator. *)
Lemma split_no_sep s sep : Forall (fun line => ~ In sep line) (Py.split s sep).
Proof.
  induction s as [|c s IH]; [simpl; constructor; [by intros []|constructor]|].
  destruct (Ascii.eqb c sep) eqn:Hc.
  - simpl. rewrite Hc. constructor; [by intros []|done].
  - destruct (split_step c s sep Hc) as (line & lines & E & E').
    rewrite E'. rewrite E in IH. inversion IH; subst.
    constructor; [|done]. intros [->|Hin]; [|done].
    by rewrite Ascii.eqb_refl in Hc.
Qed.

(** *** [strip] *)

Lemma lstrip_head s :
  match Py.lstrip s with [] => True | c :: _ => Py.isspace c = false end.
Proof.
  induction s as [|c s IH]; simpl; [done|].
  destruct (Py.isspace c) eqn:E; done.
Qed.

Lemma lstrip_fixed s :
  match s with [] => True | c :: _ => Py.isspace c = false end -> Py.lstrip s = s.
Proof. destruct s as [|c s]; simpl; [done|]. by intros ->. Qed.

Lemma lstrip_idem s : Py.lstrip (Py.lstrip s) = Py.lstrip s.
Proof. apply lstrip_fixed, lstrip_head. Qed.

Lemma lstrip_snoc s c :
  Py.isspace c = false -> Py.lstrip (s ++ [c]) = Py.lstrip s ++ [c].
Proof.
  intros Hc. induction s as [|a s IH]; simpl; [by rewrite Hc|].
  by destruct (Py.isspace a).
Qed.

Lemma rstrip_cons c s :
  Py.isspace c = false -> Py.rstrip (c :: s) = c :: Py.rstrip s.
Proof.
  intros Hc. unfold Py.rstrip. simpl rev.
  by rewrite lstrip_snoc, rev_app_distr.
Qed.

Lemma rstrip_idem s : Py.rstrip (Py.rstrip s) = Py.rstrip s.
Proof. unfold Py.rstrip. by rewrite rev_involutive, lstrip_idem. Qed.

(** Stripping twice is stripping once. *)
Lemma strip_idem s : Py.strip (Py.strip s) = Py.strip s.
Proof.
  unfold Py.strip. pose proof (lstrip_head s) as H.
  destruct (Py.lstrip s) as [|c t]; [done|].
  rewrite (rstrip_cons c t H).
  rewrite (lstrip_fixed (c :: Py.rstrip t) H).
  by rewrite (rstrip_cons c _ H), rstrip_idem.
Qed.

(** A stripped text neither starts nor ends with white space. *)
Lemma strip_ends s :
  match Py.strip s with [] => True | c :: _ => Py.isspace c = false end
  /\ match rev (Py.strip s) with [] => True | c :: _ => Py.isspace c = false end.
Proof.
  split.
  - unfold Py.strip. pose proof (lstrip_head s) as H.
    destruct (Py.lstrip s) as [|c t]; [done|]. by rewrite (rstrip_cons c t H).
  - unfold Py.strip, Py.rstrip. rewrite rev_involutive. apply lstrip_head.
Qed.

Lemma lstrip_decomp s :
  exists pre, s = pre ++ Py.lstrip s /\ forallb Py.isspace pre = true.
Proof.
  induction s as [|c s (pre & E & Hpre)]; [by exists []|]. simpl.
  destruct (Py.isspace c) eqn:Hc; [|by exists []].
  exists (c :: pre). simpl. rewrite Hc, Hpre. split; [by f_equal|done].
Qed.

(** What [strip] removes is white space at the two ends, and nothing else. *)
Lemma strip_decomp s :
  exists pre post,
    s = pre ++ Py.strip s ++ post
    /\ forallb Py.isspace pre = true /\ forallb Py.isspace post = true.
Proof.
  destruct (lstrip_decomp s) as (pre & E & Hpre).
  destruct (lstrip_decomp (rev (Py.lstrip s))) as (post & E' & Hpost).
  exists pre, (rev post). split; [|split; [done|]].
  - unfold Py.strip, Py.rstrip. rewrite <- rev_app_distr, <- E', rev_involutive.
    exact E.
  - rewrite forallb_forall in *. intros c Hc. apply Hpost. by apply in_rev.
Qed.

(** *** The line filter *)

Lemma content_lines_filter lines :
  content_lines lines = map Py.strip (List.filter kept lines).
Proof.
  induction lines as [|line rest IH]; [done|].
  cbn [content_lines List.filter]. unfold kept at 1.
  destruct (Py.strip line) eqn:E; [done|].
  destruct (negb (Py.startswith line "__")); cbn [map]; by rewrite ?E, IH.
Qed.

Lemma content_lines_trimmed lines :
  Forall (fun line => line <> [] /\ Py.strip line = line) (content_lines lines).
Proof.
  induction lines as [|line rest IH]; cbn [content_lines]; [constructor|].
  destruct (Py.strip line) eqn:E; [done|].
  destruct (negb (Py.startswith line "__")); [|done].
  constructor; [|done]. split; [done|]. by rewrite <- E, strip_idem.
Qed.

(** Dropping the first line of a slice is starting the slice after the
    first newline. *)
Lemma drop_first_line t k :
  content_lines (drop 1 (Py.split (take k t) nl))
  = content_lines (Py.split (take (k - line_length t) (drop (line_length t) t)) nl).
Proof.
  revert k. induction t as [|c t IH]; intros k.
  - rewrite take_nil. cbn [line_length drop]. by rewrite take_nil.
  - destruct k as [|k]; [done|].
    cbn [take line_length]. destruct (Ascii.eqb c nl) eqn:Hc.
    + simpl. rewrite Hc, Nat.sub_0_r. reflexivity.
    + destruct (split_step c (take k t) nl Hc) as (line & lines & E & E').
      rewrite E'. cbn [drop Nat.sub]. rewrite <- IH, E. done.
Qed.

Lemma line_filter_slice content start stop :
  0 <= start -> 0 <= stop ->
  line_filter (Py.slice content start stop) = spec_section content start stop.
Proof.
  intros Hs He. unfold line_filter, spec_section, after_line.
  rewrite slice_tail, !slice_nonneg by lia.
  rewrite drop_first_line, drop_drop.
  set (n := line_length (drop (Z.to_nat start) content)).
  replace (Z.to_nat (start + Z.of_nat n)) with (Z.to_nat start + n)%nat by lia.
  do 3 f_equal. lia.
Qed.

(** ** The loops in closed form *)

Lemma append_n_repeat {A} k (x : A) l : append_n k x l = l ++ repeat x k.
Proof.
  revert l. induction k as [|k IH]; intros l; simpl; [by rewrite app_nil_r|].
  by rewrite IH, <- app_assoc.
Qed.

Lemma pad_while_repeat {A} (l : list A) n x :
  pad_while l n x = l ++ repeat x (n - length l).
Proof. apply append_n_repeat. Qed.

Lemma pad_while_length {A} (l : list A) n x :
  length (pad_while l n x) = Nat.max n (length l).
Proof. rewrite pad_while_repeat, length_app, repeat_length. lia. Qed.

Lemma fold_append_map {A B} (f : A -> B) l acc :
  fold_left (fun acc c => acc ++ [f c]) l acc = acc ++ map f l.
Proof.
  revert acc. induction l as [|c l IH]; intros acc; simpl; [by rewrite app_nil_r|].
  by rewrite IH, <- app_assoc.
Qed.

Lemma row_pixels_closed row : row_pixels row = pixel_row row.
Proof.
  unfold row_pixels, pixel_row.
  change (Py.slice row 0 128) with (Py.slice row 0 (Z.of_nat 128)).
  rewrite slice_prefix, fold_append_map, pad_while_repeat. cbn [app].
  by rewrite length_map.
Qed.

Lemma pixel_row_length row : length (pixel_row row) = 128%nat.
Proof.
  unfold pixel_row. rewrite length_app, length_map, repeat_length, length_take. lia.
Qed.

Lemma pixel_matrix_length sec : length (pixel_matrix sec) = 128%nat.
Proof.
  unfold pixel_matrix. rewrite length_app, length_map, repeat_length, length_take. lia.
Qed.

Lemma pixel_matrix_rows sec :
  Forall (fun row => length row = 128%nat) (pixel_matrix sec).
Proof.
  unfold pixel_matrix. apply Forall_app. split.
  - apply List.Forall_forall. intros r Hr.
    apply in_map_iff in Hr as (row & <- & _). apply pixel_row_length.
  - apply List.Forall_forall. intros r Hr. apply repeat_spec in Hr as ->.
    apply repeat_length.
Qed.

(** Induction over a text two characters at a time. *)
Lemma pairs_ind (P : list ascii -> Prop) :
  P [] -> (forall a, P [a]) -> (forall a b r, P r -> P (a :: b :: r)) ->
  forall r, P r.
Proof.
  intros H0 H1 H2 r.
  assert (P r /\ forall a, P (a :: r)) as [H _]; [|exact H].
  induction r as [|b r [IH1 IH2]]; [by split|].
  split; [apply IH2|]. intros a. by apply H2.
Qed.

Lemma range3_step2 (n : nat) :
  Py.range3 0 (Z.of_nat n) 2 = map (fun k => 0 + 2 * Z.of_nat k) (seq 0 ((n + 1) / 2)).
Proof.
  unfold Py.range3. do 2 f_equal.
  replace (Z.of_nat n - 0 + 2 - 1) with (Z.of_nat (n + 1)) by lia.
  change 2 with (Z.of_nat 2). rewrite <- Nat2Z.inj_div. apply Nat2Z.id.
Qed.

(** Scanning a row from offset [length pre] on reads the pairs of what is
    left of it. *)
Lemma scan_pairs_from r : forall pre map_bytes,
  fold_left (scan_pair (pre ++ r))
            (map (fun k => Z.of_nat (length pre) + 2 * Z.of_nat k)
                 (seq 0 ((length r + 1) / 2)))
            map_bytes
  = map_bytes ++ map token_byte (pairs r).
Proof.
  induction r as [|a|a b r IH] using pairs_ind; intros pre mb.
  - simpl. by rewrite app_nil_r.
  - simpl. unfold scan_pair, Py.len. rewrite length_app. simpl length.
    rewrite (proj2 (Z.ltb_ge _ _)) by lia. by rewrite app_nil_r.
  - replace ((length (a :: b :: r) + 1) / 2)%nat with (S ((length r + 1) / 2)).
    2:{ simpl length. replace (S (S (length r)) + 1)%nat
          with (length r + 1 + 1 * 2)%nat by lia.
        rewrite Nat.div_add by lia. lia. }
    rewrite <- cons_seq, <- seq_shift, map_cons, map_map. cbn [fold_left].
    assert (scan_pair (pre ++ a :: b :: r) mb (Z.of_nat (length pre) + 2 * Z.of_nat 0)
            = mb ++ [token_byte [a; b]]) as ->.
    { unfold scan_pair, Py.len. rewrite length_app. simpl length.
      rewrite (proj2 (Z.ltb_lt _ _)) by lia.
      replace (Z.of_nat (length pre) + 2 * Z.of_nat 0 + 2)
        with (Z.of_nat (length pre) + Z.of_nat 2) by lia.
      replace (Z.of_nat (length pre) + 2 * Z.of_nat 0)
        with (Z.of_nat (length pre)) by lia.
      rewrite slice_window, drop_app_length.
      change (take 2 (a :: b :: r)) with [a; b].
      unfold token_byte. by destruct (Py.int16 [a; b]). }
    specialize (IH (pre ++ [a; b]) (mb ++ [token_byte [a; b]])).
    rewrite <- app_assoc in IH. cbn [app] in IH.
    rewrite length_app in IH. simpl length in IH.
    cbn [pairs map]. rewrite <- app_assoc in IH. cbn [app] in IH.
    rewrite <- IH. f_equal. apply map_ext. intros k. lia.
Qed.

Lemma scan_row_closed map_bytes row :
  scan_row map_bytes row = map_bytes ++ map token_byte (pairs (Py.strip row)).
Proof.
  unfold scan_row, Py.len. rewrite range3_step2.
  apply (scan_pairs_from (Py.strip row) []).
Qed.

Lemma fold_scan_rows sec map_bytes :
  fold_left scan_row sec map_bytes = map_bytes ++ scanned_bytes sec.
Proof.
  revert map_bytes. induction sec as [|row sec IH]; intros mb.
  - simpl. by rewrite app_nil_r.
  - cbn [fold_left]. rewrite IH, scan_row_closed. unfold scanned_bytes.
    cbn [map concat]. by rewrite app_assoc.
Qed.

Lemma decode_map_closed sec :
  decode_map sec
  = scanned_bytes sec ++ repeat 0 (4096 - length (scanned_bytes sec)).
Proof. unfold decode_map. by rewrite fold_scan_rows, pad_while_repeat. Qed.

Lemma decode_map_length sec : (4096 <= length (decode_map sec))%nat.
Proof. unfold decode_map. rewrite pad_while_length. lia. Qed.

(** ** What the statements do to the world *)

Lemma write_at f s m buf out err :
  write f s (mkWorld (<[f := buf]> m) out err)
  = mkWorld (<[f := buf ++ s]> m) out err.
Proof. unfold write. simpl. by rewrite lookup_insert_eq, insert_insert_eq. Qed.

Lemma print_at s m out err :
  print s (mkWorld m out err) = mkWorld m (out ++ s ++ [nl]) err.
Proof. done. Qed.

Lemma open_w_at path m out err :
  open_w path (mkWorld m out err) = mkWorld (<[path := []]> m) out err.
Proof. done. Qed.

(** A line written in three steps is the line. *)
Lemma write_line_at f body (comma : bool) m buf out err :
  (write f body ;; when comma (write f ",") ;; write f [nl])
    (mkWorld (<[f := buf]> m) out err)
  = mkWorld (<[f := buf ++ line_text body comma]> m) out err.
Proof.
  unfold seq_stmt, when, skip, line_text. rewrite write_at.
  destruct comma; rewrite ?write_at; by rewrite <- !app_assoc.
Qed.

(** A loop whose body appends [g x] to the file appends them all. *)
Lemma for_each_write {A} (l : list A) (body : A -> World -> World) (g : A -> list ascii) f :
  (forall x m buf out err,
      body x (mkWorld (<[f := buf]> m) out err)
      = mkWorld (<[f := buf ++ g x]> m) out err) ->
  forall m buf out err,
    for_each l body (mkWorld (<[f := buf]> m) out err)
    = mkWorld (<[f := buf ++ concat (map g l)]> m) out err.
Proof.
  intros Hbody. unfold for_each.
  induction l as [|x l IH]; intros m buf out err; simpl.
  - by rewrite app_nil_r.
  - by rewrite Hbody, IH, <- app_assoc.
Qed.

(** *** Lines and their commas *)

Lemma enumerate_from_app {A} (a b : list A) s :
  Py.enumerate_from s (a ++ b)
  = Py.enumerate_from s a ++ Py.enumerate_from (s + Py.len a) b.
Proof.
  revert s. induction a as [|x a IH]; intros s; simpl.
  - f_equal. unfold Py.len. simpl. lia.
  - rewrite IH. do 3 f_equal. unfold Py.len. simpl length. lia.
Qed.

Lemma enumerate_from_map {A B} (f : A -> B) (l : list A) s :
  Py.enumerate_from s (map f l)
  = map (fun ix => (fst ix, f (snd ix))) (Py.enumerate_from s l).
Proof. revert s. induction l as [|x l IH]; intros s; simpl; [done|]. by rewrite IH. Qed.

(** Lines numbered from [s] to [N - 1], with a comma on each line whose
    number is below [N - 1], are the lines joined by comma and newline. *)
Lemma lines_join {A} (body : A -> list ascii) (items : list A) s N :
  items <> [] -> s + Py.len items = N ->
  concat (map (fun ix => line_text (body (snd ix)) (fst ix <? N - 1))
              (Py.enumerate_from s items))
  = Py.join ("," ++ [nl]) (map body items) ++ [nl].
Proof.
  intros Hne. revert s. induction items as [|x items IH]; [done|]. intros s Hs.
  unfold Py.len in *. simpl length in Hs.
  destruct items as [|y items].
  - simpl. rewrite (proj2 (Z.ltb_ge _ _)) by (simpl in Hs; lia).
    unfold line_text. by rewrite app_nil_r.
  - cbn [Py.enumerate_from map concat fst snd].
    rewrite (proj2 (Z.ltb_lt s (N - 1))) by (simpl length in Hs; lia).
    specialize (IH ltac:(done) (s + 1) ltac:(simpl length in *; lia)).
    cbn [Py.enumerate_from map concat fst snd] in IH. rewrite IH.
    unfold line_text. cbn [Py.join map]. by rewrite <- !app_assoc.
Qed.

(** *** The three writing loops *)

Lemma write_gfx_row_at f ir m buf out err :
  write_gfx_row f ir (mkWorld (<[f := buf]> m) out err)
  = mkWorld (<[f := buf ++ line_text (row_body (pixel_row (snd ir))) (fst ir <? 127)]> m)
            out err.
Proof.
  destruct ir as [i row]. unfold write_gfx_row. cbv beta iota.
  rewrite write_line_at. by rewrite row_pixels_closed.
Qed.

Lemma write_fill_row_at f i m buf out err :
  write_fill_row f i (mkWorld (<[f := buf]> m) out err)
  = mkWorld (<[f := buf ++ line_text (row_body zero_row) (i <? 127)]> m) out err.
Proof. unfold write_fill_row. cbv zeta. by rewrite write_line_at. Qed.

Lemma write_map_line_at f map_bytes i m buf out err :
  write_map_line f map_bytes i (mkWorld (<[f := buf]> m) out err)
  = mkWorld (<[f := buf ++ line_text (bytes_body (Py.slice map_bytes i (i + 16)))
                                     (i + 16 <? 4096)]> m) out err.
Proof. unfold write_map_line. cbv zeta. by rewrite write_line_at. Qed.

Lemma fill_rows_enumerate {A B} (h : Z * A -> B) (x : A) n a :
  map (fun i => h (i, x)) (map (fun k => a + 1 * Z.of_nat k) (seq 0 n))
  = map h (Py.enumerate_from a (repeat x n)).
Proof.
  revert a. induction n as [|n IH]; intros a; [done|].
  rewrite <- cons_seq, <- seq_shift, !map_cons, !map_map. simpl repeat.
  cbn [Py.enumerate_from map]. rewrite <- IH, map_map.
  f_equal; [do 2 f_equal; lia|]. apply map_ext. intros k. do 2 f_equal. lia.
Qed.

(** The two loops over the rows write the matrix, row after row. *)
Lemma gfx_rows_text sec :
  concat (map (fun ir => line_text (row_body (pixel_row (snd ir))) (fst ir <? 127))
              (Py.enumerate (Py.slice sec 0 128)))
  ++ concat (map (fun i => line_text (row_body zero_row) (i <? 127))
                 (Py.range (Py.len sec) 128))
  = render_rows (pixel_matrix sec).
Proof.
  unfold render_rows.
  rewrite <- (lines_join row_body (pixel_matrix sec) 0 128).
  2:{ intros E. pose proof (pixel_matrix_length sec) as H. by rewrite E in H. }
  2:{ unfold Py.len. rewrite pixel_matrix_length. done. }
  unfold pixel_matrix. rewrite enumerate_from_app, map_app, concat_app.
  change (128 - 1) with 127. f_equal.
  - unfold Py.enumerate. change (Py.slice sec 0 128) with (Py.slice sec 0 (Z.of_nat 128)).
    rewrite slice_prefix, enumerate_from_map, map_map. done.
  - f_equal. unfold Py.range, Py.range3, Py.len.
    rewrite Z.div_1_r, length_map, length_take.
    replace (Z.to_nat (128 - Z.of_nat (length sec) + 1 - 1))
      with (128 - length sec)%nat by lia.
    etrans;
      [exact (fill_rows_enumerate
                (fun ix => line_text (row_body (snd ix)) (fst ix <? 127))
                zero_row (128 - length sec) (Z.of_nat (length sec)))|].
    destruct (le_lt_dec 128 (length sec)) as [Hge|Hlt].
    + replace (128 - length sec)%nat with O by lia. done.
    + do 2 f_equal. lia.
Qed.

Lemma chunks16_length {A} k (l : list A) : length (chunks16 k l) = k.
Proof. revert l. induction k as [|k IH]; intros l; simpl; [done|]. by rewrite IH. Qed.

Lemma slices_chunks {B} (map_bytes : list Z) (h : Z -> list Z -> B) k : forall off : nat,
  map (fun i => h i (Py.slice map_bytes i (i + 16)))
      (map (fun j => 0 + 16 * Z.of_nat j) (seq off k))
  = map (fun ix => h (16 * fst ix) (snd ix))
        (Py.enumerate_from (Z.of_nat off) (chunks16 k (drop (16 * off) map_bytes))).
Proof.
  induction k as [|k IH]; intros off; [done|].
  cbn [seq map chunks16 Py.enumerate_from fst snd]. f_equal.
  - assert (Py.slice map_bytes (0 + 16 * Z.of_nat off) (0 + 16 * Z.of_nat off + 16)
            = take 16 (drop (16 * off) map_bytes)) as ->.
    { replace (0 + 16 * Z.of_nat off) with (Z.of_nat (16 * off)) by lia.
      apply (slice_window map_bytes (16 * off) 16). }
    f_equal; lia.
  - rewrite IH, drop_drop. do 3 f_equal; [lia|]. f_equal. lia.
Qed.

(** The loop over the map writes 256 lines of sixteen bytes. *)
Lemma map_lines_text map_bytes :
  concat (map (fun i => line_text (bytes_body (Py.slice map_bytes i (i + 16)))
                                  (i + 16 <? 4096))
              (Py.range3 0 4096 16))
  = render_lines (chunks16 256 map_bytes).
Proof.
  unfold render_lines.
  rewrite <- (lines_join bytes_body (chunks16 256 map_bytes) 0 256).
  2:{ intros E. pose proof (chunks16_length 256 map_bytes) as H. by rewrite E in H. }
  2:{ unfold Py.len. by rewrite chunks16_length. }
  unfold Py.range3.
  change (Z.to_nat ((4096 - 0 + 16 - 1) / 16)) with 256%nat.
  rewrite (slices_chunks map_bytes
             (fun i line => line_text (bytes_body line) (i + 16 <? 4096)) 256 0).
  apply (f_equal (@concat ascii)), map_ext. intros [j line]. cbn [fst snd]. f_equal.
  destruct (Z.ltb_spec (16 * j + 16) 4096), (Z.ltb_spec j (256 - 1)); [done|lia|lia|done].
Qed.

(** ** A run of the conversion *)

(** With both markers in the document the call returns, the output file
    holds the header of the document, and the progress is printed. *)
Lemma convert_run p8 out w content :
  files w !! p8 = Some content ->
  gfx_start content <> -1 -> map_start content <> -1 ->
  convert_p8_to_header p8 out w
  = (Returned,
     mkWorld (<[out := header_of content]> (files w))
             (stdout w ++ progress_log content out) (stderr w)).
Proof.
  intros Hfile Hg Hm. unfold convert_p8_to_header. rewrite Hfile.
  rewrite (proj2 (Z.eqb_neq _ _) Hg), (proj2 (Z.eqb_neq _ _) Hm). cbv zeta.
  f_equal. destruct w as [m so se]. unfold seq_stmt. cbn [files stdout stderr].
  rewrite !print_at, open_w_at, !write_at.
  rewrite (for_each_write _ _ _ out (write_gfx_row_at out)).
  rewrite (for_each_write _ _ _ out (write_fill_row_at out)).
  rewrite !write_at, print_at.
  rewrite (for_each_write _ _ _ out (write_map_line_at out _)).
  rewrite !write_at, print_at.
  unfold header_of, header_text, progress_log. cbv zeta.
  rewrite <- gfx_rows_text, <- map_lines_text.
  unfold banner, spritesheet_open, map_open, array_close, guard_close.
  rewrite app_nil_l, <- !app_assoc. reflexivity.
Qed.

(** ** Sizes of what is written *)

Lemma chunks16_concat {A} k (l : list A) :
  concat (chunks16 k l) = take (16 * k) l.
Proof.
  revert l. induction k as [|k IH]; intros l; [done|].
  cbn [chunks16 concat]. rewrite IH, take_take_drop. f_equal. lia.
Qed.

Lemma chunks16_full {A} k (l : list A) :
  (16 * k <= length l)%nat ->
  Forall (fun line => length line = 16%nat) (chunks16 k l).
Proof.
  revert l. induction k as [|k IH]; intros l Hl; [constructor|].
  cbn [chunks16]. constructor.
  - rewrite length_take. lia.
  - apply IH. rewrite length_drop. lia.
Qed.

(** C1: with both markers in the document, the header that is written
    holds a pixel array of exactly 128 rows of exactly 128 values (the
    first 128 section lines, each cut or padded, then rows of zeros), and
    a map array of exactly 4096 entries in 256 lines of sixteen (the
    first 4096 of the bytes read followed by zeros). *)
Theorem C1_fixed_sizes p8 out w content :
  files w !! p8 = Some content ->
  gfx_start content <> -1 -> map_start content <> -1 ->
  exists rows lines,
    convert_p8_to_header p8 out w
    = (Returned,
       mkWorld (<[out := header_text rows lines]> (files w))
               (stdout w ++ progress_log content out) (stderr w))
    /\ rows = map pixel_row (take 128 (gfx_section content))
              ++ repeat zero_row (128 - length (gfx_section content))
    /\ length rows = 128%nat
    /\ Forall (fun row => length row = 128%nat) rows
    /\ concat lines
       = take 4096 (scanned_bytes (map_section content)
                    ++ repeat 0 (4096 - length (scanned_bytes (map_section content))))
    /\ length lines = 256%nat
    /\ Forall (fun line => length line = 16%nat) lines
    /\ length (concat lines) = 4096%nat.
Proof.
  intros Hfile Hg Hm.
  exists (pixel_matrix (gfx_section content)),
         (chunks16 256 (decode_map (map_section content))).
  pose proof (decode_map_length (map_section content)) as Hlen.
  split; [exact (convert_run p8 out w content Hfile Hg Hm)|].
  split; [done|].
  split; [apply pixel_matrix_length|].
  split; [apply pixel_matrix_rows|].
  split; [by rewrite chunks16_concat, decode_map_closed|].
  split; [apply chunks16_length|].
  split; [apply chunks16_full; exact Hlen|].
  rewrite chunks16_concat, length_take. change (16 * 256)%nat with 4096%nat. lia.
Qed.

Lemma C1_fixed_sizes_witness :
  exists rows lines,
    convert_p8_to_header p8_file output_file (world_of sample_doc)
    = (Returned,
       mkWorld (<[output_file := header_text rows lines]> (files (world_of sample_doc)))
               (stdout (world_of sample_doc) ++ progress_log sample_doc output_file)
               (stderr (world_of sample_doc)))
    /\ rows = map pixel_row (take 128 (gfx_section sample_doc))
              ++ repeat zero_row (128 - length (gfx_section sample_doc))
    /\ length rows = 128%nat
    /\ Forall (fun row => length row = 128%nat) rows
    /\ concat lines
       = take 4096 (scanned_bytes (map_section sample_doc)
                    ++ repeat 0 (4096 - length (scanned_bytes (map_section sample_doc))))
    /\ length lines = 256%nat
    /\ Forall (fun line => length line = 16%nat) lines
    /\ length (concat lines) = 4096%nat.
Proof.
  apply (C1_fixed_sizes p8_file output_file (world_of sample_doc) sample_doc).
  - vm_compute. reflexivity.
  - vm_compute. discriminate.
  - vm_compute. discriminate.
Defined.

(** ** Pixels *)

(** A character of a row is a pixel: its value when it is a hexadecimal
    digit, and 0 otherwise. *)
Lemma decode_pixel_hex c :
  decode_pixel c
  = match Py.hex_digit_value c with
    | Some v => Py.str v
    | None => "0"
    end.
Proof. destruct c as [[] [] [] [] [] [] [] []]; vm_compute; reflexivity. Qed.

Lemma hex_digit_value_range c v : Py.hex_digit_value c = Some v -> 0 <= v <= 15.
Proof.
  unfold Py.hex_digit_value.
  repeat match goal with
         | |- context [if ?b then _ else _] => destruct b eqn:?
         end; intros [= <-]; try discriminate;
    repeat match goal with
           | H : _ && _ = true |- _ => apply andb_prop in H as [? ?]
           end; lia.
Qed.

Lemma decode_pixel_palette c : palette_index (decode_pixel c).
Proof.
  rewrite decode_pixel_hex. destruct (Py.hex_digit_value c) as [v|] eqn:E.
  - exists v. split; [by apply (hex_digit_value_range c)|done].
  - exists 0. split; [lia|done].
Qed.

Lemma pixel_row_palette row : Forall palette_index (pixel_row row).
Proof.
  unfold pixel_row. apply Forall_app. split; apply List.Forall_forall; intros px Hpx.
  - apply in_map_iff in Hpx as (c & <- & _). apply decode_pixel_palette.
  - apply repeat_spec in Hpx as ->. exists 0. split; [lia|done].
Qed.

Lemma pixel_matrix_palette sec : Forall (Forall palette_index) (pixel_matrix sec).
Proof.
  unfold pixel_matrix. apply Forall_app. split; apply List.Forall_forall; intros r Hr.
  - apply in_map_iff in Hr as (row & <- & _). apply pixel_row_palette.
  - apply repeat_spec in Hr as ->. apply List.Forall_forall. intros px Hpx.
    apply repeat_spec in Hpx as ->. exists 0. split; [lia|done].
Qed.





(** The second row of the sample holds a character that is no digit:
    it is written as 0, after the 15 of the digit before it. *)
Example sample_second_row :
  take 3 (row_pixels "fg") = [("15" : list ascii); ("0" : list ascii); ("0" : list ascii)].
Proof. vm_compute. reflexivity. Qed.

(** ** Sections *)

Lemma gfx_end_cases content :
  (label_start content <> -1 /\ label_start content < map_start content
   /\ gfx_end content = label_start content)
  \/ ((label_start content = -1 \/ map_start content <= label_start content)
      /\ gfx_end content = map_start content).
Proof.
  unfold gfx_end.
  destruct (Z.eqb_spec (label_start content) (-1)) as [E|E]; simpl.
  - right. split; [by left|done].
  - destruct (Z.ltb_spec (label_start content) (map_start content)).
    + left. done.
    + right. split; [by right|done].
Qed.

Lemma map_end_cases content :
  (sfx_start content <> -1 /\ map_end content = sfx_start content)
  \/ (sfx_start content = -1 /\ map_end content = Py.len content).
Proof.
  unfold map_end.
  destruct (Z.eqb_spec (sfx_start content) (-1)) as [E|E]; simpl; [by right|by left].
Qed.

(** C3: the GFX section is the content lines of the text from just after
    the line of the [__gfx__] marker up to the [__label__] marker when
    there is one before [__map__], and up to the [__map__] marker
    otherwise; the MAP section is the content lines from just after the
    line of the [__map__] marker up to the [__sfx__] marker when there
    is one, and up to the end of the document otherwise. *)
Theorem C3_section_boundaries content :
  gfx_start content <> -1 -> map_start content <> -1 ->
  (label_start content <> -1 /\ label_start content < map_start content ->
   gfx_section content
   = spec_section content (gfx_start content) (label_start content))
  /\ (label_start content = -1 \/ map_start content <= label_start content ->
      gfx_section content
      = spec_section content (gfx_start content) (map_start content))
  /\ (sfx_start content <> -1 ->
      map_section content
      = spec_section content (map_start content) (sfx_start content))
  /\ (sfx_start content = -1 ->
      map_section content
      = spec_section content (map_start content) (Py.len content)).
Proof.
  intros Hg Hm.
  destruct (find_bounds content "__gfx__") as [?|Bg]; [done|].
  destruct (find_bounds content "__map__") as [?|Bm]; [done|].
  fold (gfx_start content) in Bg. fold (map_start content) in Bm.
  pose proof (find_bounds content "__label__") as Bl. fold (label_start content) in Bl.
  pose proof (find_bounds content "__sfx__") as Bs. fold (sfx_start content) in Bs.
  unfold gfx_section, map_section.
  split; [|split; [|split]].
  - intros [Hl Hlt]. destruct (gfx_end_cases content) as [(_ & _ & ->)|[[?|?] _]];
      [|lia..]. apply line_filter_slice; lia.
  - intros Hl. destruct (gfx_end_cases content) as [(? & ? & _)|[_ ->]]; [lia|].
    apply line_filter_slice; lia.
  - intros Hs. destruct (map_end_cases content) as [[_ ->]|[? _]]; [|done].
    apply line_filter_slice; lia.
  - intros Hs. destruct (map_end_cases content) as [[? _]|[_ ->]]; [done|].
    apply line_filter_slice; unfold Py.len; lia.
Qed.

Lemma C3_section_boundaries_witness :
  gfx_section sample_doc
  = spec_section sample_doc (gfx_start sample_doc) (label_start sample_doc)
  /\ map_section sample_doc
     = spec_section sample_doc (map_start sample_doc) (sfx_start sample_doc)
  /\ gfx_section sample_doc = [("0123" : list ascii); ("fg" : list ascii)]
  /\ map_section sample_doc = [("aabbc" : list ascii)].
Proof.
  destruct (C3_section_boundaries sample_doc) as (Hlabel & _ & Hsfx & _).
  - vm_compute. discriminate.
  - vm_compute. discriminate.
  - split; [apply Hlabel; vm_compute; split; [discriminate|reflexivity]|].
    split; [apply Hsfx; vm_compute; discriminate|].
    split; vm_compute; reflexivity.
Defined.

Lemma split_first_line first rest :
  ~ In nl first -> Py.split (first ++ nl :: rest) nl = first :: Py.split rest nl.
Proof.
  induction first as [|c first IH]; intros Hnl.
  - reflexivity.
  - cbn [app Py.split]. destruct (Ascii.eqb c nl) eqn:E.
    + apply Ascii.eqb_eq in E. exfalso. apply Hnl. by left.
    + rewrite IH; [done|]. intros Hin. apply Hnl. by right.
Qed.

Lemma kept_spec line :
  kept line = true <-> Py.strip line <> [] /\ Py.startswith line "__" = false.
Proof.
  unfold kept. destruct (Py.strip line); [by intuition|].
  destruct (Py.startswith line "__"); simpl; intuition done.
Qed.

Lemma line_filter_closed raw :
  line_filter raw = map Py.strip (List.filter kept (drop 1 (Py.split raw nl))).
Proof. unfold line_filter. by rewrite slice_tail, content_lines_filter. Qed.

(** C6: the line filter splits the slice at its newlines, drops the first
    line (the marker's), keeps of the others, in their order, those that
    are not empty once stripped and do not start with two underscores,
    and returns each of them stripped of the white space at its ends. *)
Theorem C6_line_filter (raw : list ascii) :
  line_filter raw = map Py.strip (List.filter kept (drop 1 (Py.split raw nl)))
  /\ Py.join [nl] (Py.split raw nl) = raw
  /\ Forall (fun line => ~ In nl line) (Py.split raw nl)
  /\ (forall first rest,
        ~ In nl first -> raw = first ++ nl :: rest ->
        line_filter raw = map Py.strip (List.filter kept (Py.split rest nl)))
  /\ (forall line,
        kept line = true
        <-> Py.strip line <> [] /\ Py.startswith line "__" = false)
  /\ (forall line, exists pre post,
        line = pre ++ Py.strip line ++ post
        /\ forallb Py.isspace pre = true /\ forallb Py.isspace post = true)
  /\ (forall line,
        match Py.strip line with [] => True | c :: _ => Py.isspace c = false end
        /\ match rev (Py.strip line) with [] => True | c :: _ => Py.isspace c = false end)
  /\ Forall (fun out => out <> [] /\ Py.strip out = out) (line_filter raw).
Proof.
  split; [apply line_filter_closed|].
  split; [apply join_split|].
  split; [apply split_no_sep|].
  split.
  { intros first rest Hnl ->. by rewrite line_filter_closed, split_first_line. }
  split; [apply kept_spec|].
  split; [apply strip_decomp|].
  split; [apply strip_ends|].
  unfold line_filter. apply content_lines_trimmed.
Qed.

(** The filter at work: the marker's line goes, so do the blank line and
    the line that starts with two underscores; the two lines left come
    out stripped, in their order. *)
Example line_filter_sample :
  line_filter ("__gfx__ tail" ++ [nl] ++ "  0123  " ++ [nl] ++ "   " ++ [nl]
               ++ "__x" ++ [nl] ++ "fg" ++ [nl])
  = [("0123" : list ascii); ("fg" : list ascii)].
Proof. vm_compute. reflexivity. Qed.

(** ** The marker search *)

Lemma sfx_before_map content :
  sfx_start content <> -1 -> map_start content <> -1 ->
  sfx_start content < map_start content ->
  map_section content = [].
Proof.
  intros Hs Hm Hlt. unfold map_section.
  destruct (map_end_cases content) as [[_ ->]|[? _]]; [|done].
  destruct (find_bounds content "__sfx__") as [?|Bs]; [done|].
  fold (sfx_start content) in Bs.
  rewrite slice_empty by lia. done.
Qed.

(** C10: [find] gives the first offset at which the marker occurs as a
    piece of the document, whatever stands before it on its line; and
    when the first [__sfx__] stands before the first [__map__] the map
    section is empty and the 4096 map bytes that are written are zeros. *)
Theorem C10_first_occurrence content :
  sfx_start content <> -1 -> map_start content <> -1 ->
  sfx_start content < map_start content ->
  (forall sub,
      Py.find content sub <> -1 ->
      occurs_at content sub (Py.find content sub)
      /\ forall j, 0 <= j < Py.find content sub -> ~ occurs_at content sub j)
  /\ (forall sub, Py.find content sub = -1 -> forall j, ~ occurs_at content sub j)
  /\ map_section content = []
  /\ decode_map (map_section content) = repeat 0 4096
  /\ forall p8 out w,
       files w !! p8 = Some content -> gfx_start content <> -1 ->
       convert_p8_to_header p8 out w
       = (Returned,
          mkWorld (<[out := header_text (pixel_matrix (gfx_section content))
                                        (repeat (repeat 0 16) 256)]> (files w))
                  (stdout w ++ progress_log content out) (stderr w)).
Proof.
  intros Hs Hm Hlt.
  pose proof (sfx_before_map content Hs Hm Hlt) as Hsec.
  assert (decode_map (map_section content) = repeat 0 4096) as Hbytes.
  { rewrite Hsec. vm_compute. reflexivity. }
  split.
  { intros sub Hf. destruct (find_occurs content sub Hf) as [Hat Hbefore].
    split; [done|]. intros j Hj [_ Hocc]. by rewrite Hbefore in Hocc. }
  split.
  { intros sub Hf j [Hj Hocc]. by rewrite (find_absent content sub Hf j Hj) in Hocc. }
  split; [done|]. split; [done|].
  intros p8 out w Hfile Hg.
  rewrite (convert_run p8 out w content Hfile Hg Hm).
  unfold header_of. rewrite Hbytes.
  replace (chunks16 256 (repeat 0 4096)) with (repeat (repeat 0 16) 256)
    by (vm_compute; reflexivity).
  done.
Qed.

Lemma C10_first_occurrence_witness :
  sfx_start sfx_first_doc = 15 /\ map_start sfx_first_doc = 29
  /\ occurs_at sfx_first_doc "__sfx__" 15
  /\ map_section sfx_first_doc = []
  /\ decode_map (map_section sfx_first_doc) = repeat 0 4096.
Proof.
  assert (sfx_start sfx_first_doc = 15) as Hs by (vm_compute; reflexivity).
  assert (map_start sfx_first_doc = 29) as Hm by (vm_compute; reflexivity).
  destruct (C10_first_occurrence sfx_first_doc) as (Hfind & _ & Hsec & Hbytes & _).
  - rewrite Hs. discriminate.
  - rewrite Hm. discriminate.
  - rewrite Hs, Hm. reflexivity.
  - split; [done|]. split; [done|]. split; [|by split].
    rewrite <- Hs. apply (Hfind "__sfx__"). fold (sfx_start sfx_first_doc).
    rewrite Hs. discriminate.
Defined.

(** ** Map bytes *)

Lemma pairs_concat r : Nat.even (length r) = true -> concat (pairs r) = r.
Proof.
  induction r as [|a|a b r IH] using pairs_ind; [done|done|].
  intros Heven. cbn [pairs concat app]. by rewrite IH.
Qed.

Lemma pairs_length r : length (pairs r) = (length r / 2)%nat.
Proof.
  induction r as [|a|a b r IH] using pairs_ind; [done|done|].
  cbn [pairs length]. rewrite IH.
  replace (S (S (length r))) with (length r + 1 * 2)%nat by lia.
  rewrite Nat.div_add by lia. lia.
Qed.

Lemma pairs_snoc body c :
  Nat.even (length body) = true -> pairs (body ++ [c]) = pairs body.
Proof.
  induction body as [|a|a b r IH] using pairs_ind; [done|done|].
  intros Heven. cbn [app pairs]. by rewrite IH.
Qed.

Lemma odd_snoc (r : list ascii) :
  Nat.odd (length r) = true ->
  exists body c, r = body ++ [c] /\ Nat.even (length body) = true.
Proof.
  intros Hodd. destruct r as [|a r] using rev_ind; [done|].
  exists r, a. split; [done|].
  rewrite length_app in Hodd. simpl in Hodd.
  rewrite Nat.add_1_r, Nat.odd_succ in Hodd. done.
Qed.

Lemma map_section_trimmed content line :
  In line (map_section content) -> Py.strip line = line.
Proof.
  intros Hin. unfold map_section, line_filter in Hin.
  pose proof (content_lines_trimmed
                (Py.slice (Py.split (Py.slice content (map_start content)
                                              (map_end content)) nl)
                          1 (Py.len (Py.split (Py.slice content (map_start content)
                                                        (map_end content)) nl))))
    as Hall.
  rewrite List.Forall_forall in Hall. by destruct (Hall line Hin).
Qed.

(** C7: a line of the map section with an odd number of characters is
    some text of even length followed by one character; the bytes the line
    adds are those of the two-character tokens that make up that text, one
    for each, and nothing comes from the last character. *)
Theorem C7_odd_line content line map_bytes :
  In line (map_section content) -> Nat.odd (length line) = true ->
  exists body c,
    line = body ++ [c]
    /\ scan_row map_bytes line = map_bytes ++ map token_byte (pairs body)
    /\ scan_row map_bytes line = scan_row map_bytes (Py.strip line)
    /\ concat (pairs body) = body
    /\ length (pairs body) = (length line / 2)%nat.
Proof.
  intros Hin Hodd.
  destruct (odd_snoc line Hodd) as (body & c & -> & Heven).
  exists body, c. pose proof (map_section_trimmed content _ Hin) as Hstrip.
  split; [done|].
  split; [by rewrite scan_row_closed, Hstrip, pairs_snoc|].
  split; [by rewrite Hstrip|].
  split; [by apply pairs_concat|].
  rewrite <- (pairs_snoc body c Heven). apply pairs_length.
Qed.

Lemma C7_odd_line_witness :
  exists body c,
    ("aabbc" : list ascii) = body ++ [c]
    /\ scan_row [] "aabbc" = [] ++ map token_byte (pairs body)
    /\ scan_row [] "aabbc" = scan_row [] (Py.strip "aabbc")
    /\ concat (pairs body) = body
    /\ length (pairs body) = (length ("aabbc" : list ascii) / 2)%nat.
Proof.
  apply (C7_odd_line sample_doc "aabbc" []).
  - vm_compute. left. reflexivity.
  - vm_compute. reflexivity.
Defined.

(** The odd line of the sample gives the two bytes of its two pairs. *)
Example sample_odd_line : scan_row [] "aabbc" = [170; 187].
Proof. vm_compute. reflexivity. Qed.

(** ** A document without a required marker *)

Lemma convert_missing p8 out w content :
  files w !! p8 = Some content ->
  gfx_start content = -1 \/ map_start content = -1 ->
  exists section : list ascii,
    (section = "__gfx__" /\ gfx_start content = -1
     \/ section = "__map__" /\ gfx_start content <> -1 /\ map_start content = -1)
    /\ convert_p8_to_header p8 out w
       = (Returned,
          mkWorld (files w)
                  (stdout w ++ "Error: " ++ section ++ " section not found" ++ [nl])
                  (stderr w)).
Proof.
  intros Hfile Hmiss. unfold convert_p8_to_header. rewrite Hfile.
  destruct (Z.eqb_spec (gfx_start content) (-1)) as [Hg|Hg].
  - exists "__gfx__". split; [by left|]. reflexivity.
  - destruct Hmiss as [?|Hm]; [done|]. rewrite Hm. simpl Z.eqb. cbv iota.
    exists "__map__". split; [by right|]. reflexivity.
Qed.

(** C2, as the program has it: when the document lacks [__gfx__] or
    lacks [__map__] the call prints one line that names the missing
    section ([__gfx__] when both are missing) on standard output and
    returns; nothing goes to standard error, no file is created, opened
    or changed, and the script ends with status 0. *)
Theorem C2_missing_section w content :
  files w !! p8_file = Some content ->
  gfx_start content = -1 \/ map_start content = -1 ->
  exists section : list ascii,
    (section = "__gfx__" /\ gfx_start content = -1
     \/ section = "__map__" /\ gfx_start content <> -1 /\ map_start content = -1)
    /\ (forall out,
          convert_p8_to_header p8_file out w
          = (Returned,
             mkWorld (files w)
                     (stdout w ++ "Error: " ++ section ++ " section not found" ++ [nl])
                     (stderr w)))
    /\ main w
       = (0, mkWorld (files w)
                     (stdout w ++ "Error: " ++ section ++ " section not found" ++ [nl])
                     (stderr w)).
Proof.
  intros Hfile Hmiss.
  destruct (convert_missing p8_file output_file w content Hfile Hmiss)
    as (section & Hsec & Hrun).
  exists section. split; [done|]. split.
  - intros out.
    destruct (convert_missing p8_file out w content Hfile Hmiss)
      as (section' & Hsec' & Hrun').
    replace section with section'; [done|].
    destruct Hsec as [[-> ?]|(-> & ? & ?)], Hsec' as [[-> ?]|(-> & ? & ?)]; done.
  - unfold main. by rewrite Hrun.
Qed.

Lemma C2_missing_section_witness :
  exists section : list ascii,
    (section = "__gfx__" /\ gfx_start no_map_doc = -1
     \/ section = "__map__" /\ gfx_start no_map_doc <> -1 /\ map_start no_map_doc = -1)
    /\ (forall out,
          convert_p8_to_header p8_file out (world_of no_map_doc)
          = (Returned,
             mkWorld (files (world_of no_map_doc))
                     (stdout (world_of no_map_doc)
                      ++ "Error: " ++ section ++ " section not found" ++ [nl])
                     (stderr (world_of no_map_doc))))
    /\ main (world_of no_map_doc)
       = (0, mkWorld (files (world_of no_map_doc))
                     (stdout (world_of no_map_doc)
                      ++ "Error: " ++ section ++ " section not found" ++ [nl])
                     (stderr (world_of no_map_doc))).
Proof.
  apply (C2_missing_section (world_of no_map_doc) no_map_doc).
  - vm_compute. reflexivity.
  - right. vm_compute. reflexivity.
Defined.

(** The claim as the specification words it fails on a document without
    [__map__]: the script ends with status 0 and standard error stays
    empty; the message is on standard output. *)
Lemma C2_counterexample :
  main (world_of no_map_doc)
  = (0, mkWorld (files (world_of no_map_doc))
                ("Error: __map__ section not found" ++ [nl]) []).
Proof.
  destruct (convert_missing p8_file output_file (world_of no_map_doc) no_map_doc)
    as (section & [[-> Hg]|(-> & _ & _)] & Hrun).
  - vm_compute. reflexivity.
  - right. vm_compute. reflexivity.
  - vm_compute in Hg. discriminate.
  - unfold main. rewrite Hrun. reflexivity.
Qed.

Lemma convert_missing_files p8 out w content :
  files w !! p8 = Some content ->
  gfx_start content = -1 \/ map_start content = -1 ->
  fst (convert_p8_to_header p8 out w) = Returned
  /\ files (snd (convert_p8_to_header p8 out w)) = files w.
Proof.
  intros Hfile Hmiss.
  destruct (convert_missing p8 out w content Hfile Hmiss) as (section & _ & ->).
  done.
Qed.

(** ** Two runs *)

(** C9: what a run does is fixed by the text of the input file.  Two runs
    on worlds that hold the same input return alike; with both markers
    each leaves the same header, the header of that text, in the output
    file; without one of them a run leaves every file as it was; and a
    second run after the first, on an input path other than the output
    path, finds the input unchanged and leaves every file byte for byte
    as the first run left it. *)
Theorem C9_deterministic p8 out w1 w2 content :
  files w1 !! p8 = Some content -> files w2 !! p8 = Some content ->
  fst (convert_p8_to_header p8 out w1) = fst (convert_p8_to_header p8 out w2)
  /\ (gfx_start content <> -1 -> map_start content <> -1 ->
      files (snd (convert_p8_to_header p8 out w1)) !! out = Some (header_of content)
      /\ files (snd (convert_p8_to_header p8 out w2)) !! out = Some (header_of content))
  /\ (gfx_start content = -1 \/ map_start content = -1 ->
      files (snd (convert_p8_to_header p8 out w1)) = files w1)
  /\ (p8 <> out ->
      files (snd (convert_p8_to_header p8 out w1)) !! p8 = Some content
      /\ files (snd (convert_p8_to_header p8 out (snd (convert_p8_to_header p8 out w1))))
         = files (snd (convert_p8_to_header p8 out w1))).
Proof.
  intros H1 H2.
  destruct (Z.eq_dec (gfx_start content) (-1)) as [Hg|Hg];
    [|destruct (Z.eq_dec (map_start content) (-1)) as [Hm|Hm]].
  3:{ rewrite (convert_run p8 out w1 content H1 Hg Hm),
              (convert_run p8 out w2 content H2 Hg Hm).
      cbn [fst snd files].
      split; [done|]. split; [by rewrite !lookup_insert_eq|].
      split; [intros [?|?]; done|]. intros Hne.
      assert (<[out := header_of content]> (files w1) !! p8 = Some content) as H1'
        by (by rewrite lookup_insert_ne).
      split; [done|].
      rewrite (convert_run p8 out (mkWorld _ _ _) content H1' Hg Hm). cbn [snd files].
      by rewrite insert_insert_eq. }
  all: assert (gfx_start content = -1 \/ map_start content = -1) as Hmiss by tauto.
  all: destruct (convert_missing_files p8 out w1 content H1 Hmiss) as [F1 S1].
  all: destruct (convert_missing_files p8 out w2 content H2 Hmiss) as [F2 S2].
  all: split; [by rewrite F1, F2|]; split; [intros; tauto|]; split; [done|].
  all: intros _; split; [by rewrite S1|].
  all: apply (convert_missing_files p8 out _ content); [by rewrite S1|done].
Qed.

Lemma C9_deterministic_witness :
  fst (convert_p8_to_header p8_file output_file (world_of sample_doc))
  = fst (convert_p8_to_header p8_file output_file
           (mkWorld (<[p8_file := sample_doc]> ∅) "earlier output" []))
  /\ files (snd (convert_p8_to_header p8_file output_file (world_of sample_doc)))
       !! output_file
     = Some (header_of sample_doc)
  /\ files (snd (convert_p8_to_header p8_file output_file
                   (mkWorld (<[p8_file := sample_doc]> ∅) "earlier output" [])))
       !! output_file
     = Some (header_of sample_doc)
  /\ files (snd (convert_p8_to_header p8_file output_file
                   (snd (convert_p8_to_header p8_file output_file
                           (world_of sample_doc)))))
     = files (snd (convert_p8_to_header p8_file output_file (world_of sample_doc))).
Proof.
  destruct (C9_deterministic p8_file output_file (world_of sample_doc)
              (mkWorld (<[p8_file := sample_doc]> ∅) "earlier output" [])
              sample_doc) as (Hret & Hboth & _ & Hagain).
  - vm_compute. reflexivity.
  - vm_compute. reflexivity.
  - destruct Hboth as [Hout1 Hout2];
      [vm_compute; discriminate | vm_compute; discriminate |].
    destruct Hagain as [_ Hsame]; [vm_compute; discriminate|].
    split; [exact Hret|]. split; [exact Hout1|]. split; [exact Hout2|exact Hsame].
Defined.

(** ** Tokens of the map section, exhaustively *)

Lemma all_chars_complete c : In c all_chars.
Proof.
  apply in_map_iff. exists (nat_of_ascii c). split; [apply ascii_nat_embedding|].
  apply in_seq. pose proof (nat_ascii_bounded c). lia.
Qed.

Lemma forall_char_pairs (P : ascii -> ascii -> bool) :
  forallb (fun a => forallb (P a) all_chars) all_chars = true ->
  forall a b, P a b = true.
Proof.
  intros H a b. rewrite forallb_forall in H.
  specialize (H a (all_chars_complete a)). rewrite forallb_forall in H.
  apply H, all_chars_complete.
Qed.

(** Every token of two characters decodes as [pair_value] says. *)
Lemma token_byte_pair a b : token_byte [a; b] = pair_value a b.
Proof.
  apply Z.eqb_eq. revert a b. apply forall_char_pairs. vm_compute. reflexivity.
Qed.

Lemma pair_value_range a b : -15 <= pair_value a b <= 255.
Proof.
  unfold pair_value.
  destruct (Py.hex_digit_value a) as [x|] eqn:Ea;
    destruct (Py.hex_digit_value b) as [y|] eqn:Eb;
    try apply hex_digit_value_range in Ea; try apply hex_digit_value_range in Eb;
    repeat match goal with
           | |- context [if ?c then _ else _] => destruct c
           end; lia.
Qed.

(** A byte from 0 to 255 is written as [0x] and its two lowercase digits. *)
Lemma render_byte_valid b : 0 <= b <= 255 -> render_byte b = "0x" ++ two_hex b.
Proof.
  intros Hb.
  assert (forallb (fun n => bool_decide
                              (render_byte (Z.of_nat n) = "0x" ++ two_hex (Z.of_nat n)))
                  (seq 0 256) = true) as Hall by (vm_compute; reflexivity).
  rewrite forallb_forall in Hall.
  assert (In (Z.to_nat b) (seq 0 256)) as Hin by (apply in_seq; lia).
  apply Hall in Hin. rewrite Z2Nat.id in Hin by lia.
  by apply bool_decide_eq_true in Hin.
Qed.






(** A token made of a minus sign and a digit is accepted by [int] too:
    the byte read is the digit negated, below 0.  The document is
    [signed_doc], whose map section is the line [-1]. *)
Example signed_token :
  existsb (Ascii.eqb "-") hex_chars = false
  /\ Py.int16 "-1" = Some (-1)
  /\ map_section signed_doc = [("-1" : list ascii)]
  /\ scan_row [] "-1" = [-1]
  /\ take 3 (decode_map (map_section signed_doc)) = [-1; 0; 0].
Proof. vm_compute. repeat split; reflexivity. Qed.

(** C8, where the program departs from it: for [signed_doc] the first
    value of the map array is written [0x-1], which is not [0x] followed
    by two hexadecimal digits. *)
Theorem C8_signed_byte_written :
  render_byte (-1) = "0x-1"
  /\ convert_p8_to_header p8_file output_file (world_of signed_doc)
     = (Returned,
        mkWorld (<[output_file :=
                     banner ++ spritesheet_open
                     ++ render_rows (pixel_matrix (gfx_section signed_doc))
                     ++ array_close ++ map_open
                     ++ render_lines (chunks16 256 (decode_map (map_section signed_doc)))
                     ++ array_close ++ guard_close]>
                   (files (world_of signed_doc)))
                (stdout (world_of signed_doc) ++ progress_log signed_doc output_file)
                (stderr (world_of signed_doc)))
  /\ take 19 (render_lines (chunks16 256 (decode_map (map_section signed_doc))))
     = "    0x-1,0x00,0x00,".
Proof.
  split; [vm_compute; reflexivity|]. split.
  - apply (convert_run p8_file output_file (world_of signed_doc) signed_doc).
    + vm_compute. reflexivity.
    + vm_compute. discriminate.
    + vm_compute. discriminate.
  - vm_compute. reflexivity.
Qed.

(** ** Further properties of the map array *)

(** The padding never shortens the list of bytes: a map section that
    holds more than 4096 bytes keeps them all in [map_bytes], and the
    4096 entries written are the first 4096 of them. *)
Theorem map_bytes_not_truncated (map_section : list (list ascii)) :
  length (decode_map map_section)
  = Nat.max 4096 (length (scanned_bytes map_section))
  /\ map_entries (decode_map map_section) = take 4096 (decode_map map_section)
  /\ length (map_entries (decode_map map_section)) = 4096%nat.
Proof.
  pose proof (decode_map_length map_section) as Hlen.
  split; [|split].
  - unfold decode_map. by rewrite pad_while_length, fold_scan_rows.
  - unfold map_entries. by rewrite chunks16_concat.
  - unfold map_entries. rewrite chunks16_concat, length_take.
    change (16 * 256)%nat with 4096%nat. lia.
Qed.

(** Every token of two characters, decoded: the byte of two digits, the
    digit when a plus sign or white space goes with it, the digit negated
    after a minus sign, 0 in every other case; so a byte read is never
    below -15 nor above 255, and it is from 0 to 255 when the token is
    two digits. *)
Theorem token_decoding (a b : ascii) :
  token_byte [a; b] = pair_value a b
  /\ -15 <= token_byte [a; b] <= 255
  /\ (forall x y,
        Py.hex_digit_value a = Some x -> Py.hex_digit_value b = Some y ->
        token_byte [a; b] = 16 * x + y /\ 0 <= token_byte [a; b] <= 255)
  /\ (Py.int16 [a; b] = None -> token_byte [a; b] = 0).
Proof.
  split; [apply token_byte_pair|]. split.
  { rewrite token_byte_pair. apply pair_value_range. }
  split.
  - intros x y Ha Hb. rewrite token_byte_pair. unfold pair_value. rewrite Ha, Hb.
    apply hex_digit_value_range in Ha, Hb. lia.
  - unfold token_byte. by intros ->.
Qed.

(** When every byte of a line is from 0 to 255 the line is written as
    four spaces and the values, each [0x] with two lowercase hexadecimal
    digits, with commas between them. *)
Theorem valid_line_rendering (line : list Z) :
  Forall (fun b => 0 <= b <= 255) line ->
  bytes_body line = "    " ++ Py.join "," (map (fun b => "0x" ++ two_hex b) line).
Proof.
  intros Hall. unfold bytes_body. do 2 f_equal.
  induction Hall as [|b line Hb Hall IH]; [done|].
  cbn [map]. by rewrite IH, render_byte_valid.
Qed.

Lemma valid_line_rendering_witness :
  bytes_body [170; 187; 0]
  = "    " ++ Py.join "," (map (fun b => "0x" ++ two_hex b) [170; 187; 0]).
Proof.
  apply (valid_line_rendering [170; 187; 0]).
  repeat constructor; lia.
Defined.

Example valid_line_sample : bytes_body [170; 187; 0] = "    0xaa,0xbb,0x00".
Proof. vm_compute. reflexivity. Qed.

(** ** Searching a text made of parts *)

Lemma find_from_range s sub i :
  (Py.find_from s sub i = -1 /\ Py.find s sub = -1)
  \/ (Py.find_from s sub i = i + Py.find s sub /\ 0 <= Py.find s sub).
Proof.
  unfold Py.find.
  destruct (find_from_spec s sub i) as [[Hn Hall]|(k & Hk & Hle & Hat & Hbefore)];
    destruct (find_from_spec s sub 0)
      as [[Hn' Hall']|(k' & Hk' & Hle' & Hat' & Hbefore')].
  - by left.
  - by rewrite (Hall k' Hle') in Hat'.
  - by rewrite (Hall' k Hle) in Hat.
  - right. rewrite Hk, Hk'. destruct (lt_eq_lt_dec k k') as [[Hlt| ->]|Hgt].
    + by rewrite (Hbefore' k Hlt) in Hat.
    + split; lia.
    + by rewrite (Hbefore k' Hgt) in Hat'.
Qed.

Lemma whole_lines_view s :
  whole_lines s = true -> s = [] \/ exists s', s = s' ++ [nl].
Proof.
  unfold whole_lines. destruct s as [|c s' _] using rev_ind; [by left|].
  rewrite rev_app_distr. simpl. intros H. apply Ascii.eqb_eq in H as ->.
  right. by exists s'.
Qed.

(** A text without newline cannot start before a newline and end after
    it. *)
Lemma startswith_barrier A B m :
  ~ In nl m -> Py.startswith (A ++ nl :: B) m = Py.startswith (A ++ [nl]) m.
Proof.
  revert m. induction A as [|c A IH]; intros m Hm.
  - destruct m as [|p m]; [done|]. cbn [app Py.startswith].
    destruct (Ascii.eqb_spec nl p) as [E|]; [|done].
    exfalso. apply Hm. by left.
  - destruct m as [|p m]; [done|]. cbn [app Py.startswith]. rewrite IH; [done|].
    intros Hin. apply Hm. by right.
Qed.

Lemma find_from_barrier A B m i :
  ~ In nl m -> m <> [] -> 0 <= i ->
  Py.find_from (A ++ nl :: B) m i
  = if Py.find_from (A ++ [nl]) m i =? -1
    then Py.find_from B m (i + Py.len A + 1)
    else Py.find_from (A ++ [nl]) m i.
Proof.
  intros Hm Hne. revert i. induction A as [|c A IH]; intros i Hi.
  - destruct m as [|p m]; [done|].
    assert (Ascii.eqb nl p = false) as Hp.
    { destruct (Ascii.eqb_spec nl p) as [E|]; [|done]. exfalso. apply Hm. by left. }
    cbn [app]. rewrite (find_from_unfold (nl :: B)), (find_from_unfold [nl]).
    cbn [Py.startswith]. rewrite Hp. cbn [andb].
    rewrite (find_from_unfold []). cbn [Py.startswith].
    change (-1 =? -1) with true. cbv iota. unfold Py.len. simpl length.
    f_equal. lia.
  - rewrite (find_from_unfold ((c :: A) ++ nl :: B)),
            (find_from_unfold ((c :: A) ++ [nl])).
    rewrite (startswith_barrier (c :: A) B m Hm).
    destruct (Py.startswith ((c :: A) ++ [nl]) m).
    + by rewrite (proj2 (Z.eqb_neq i (-1))) by lia.
    + cbn [app]. rewrite IH by lia. unfold Py.len. simpl length.
      replace (i + 1 + Z.of_nat (length A) + 1)
        with (i + Z.of_nat (S (length A)) + 1) by lia.
      done.
Qed.

(** Searching a text that starts with whole lines: the search of the
    lines decides when it finds, and the rest is searched otherwise. *)
Lemma find_app A B m :
  ~ In nl m -> m <> [] -> whole_lines A = true ->
  Py.find (A ++ B) m
  = if Py.find A m =? -1 then shift (Py.len A) (Py.find B m) else Py.find A m.
Proof.
  intros Hm Hne HA. unfold shift.
  destruct (whole_lines_view A HA) as [->|(A' & ->)].
  - destruct m as [|p m]; [done|]. simpl app.
    change (Py.find [] (p :: m)) with (-1). simpl Z.eqb. cbv iota.
    unfold Py.len. simpl length.
    destruct (Z.eqb_spec (Py.find B (p :: m)) (-1)); [done|lia].
  - rewrite <- app_assoc. cbn [app]. unfold Py.find at 1.
    rewrite find_from_barrier by (done || lia).
    fold (Py.find (A' ++ [nl]) m).
    destruct (Z.eqb_spec (Py.find (A' ++ [nl]) m) (-1)); [|done].
    unfold Py.len. rewrite length_app. simpl length.
    destruct (find_from_range B m (0 + Z.of_nat (length A') + 1)) as [[-> ->]|[-> Hk]].
    + done.
    + rewrite (proj2 (Z.eqb_neq _ _)) by lia. lia.
Qed.

Lemma find_skip A B m :
  ~ In nl m -> m <> [] -> whole_lines A = true -> Py.find A m = -1 ->
  Py.find (A ++ B) m = shift (Py.len A) (Py.find B m).
Proof. intros Hm Hne HA Hf. by rewrite find_app, Hf. Qed.

Lemma find_here A B m :
  ~ In nl m -> m <> [] -> whole_lines A = true -> Py.find A m <> -1 ->
  Py.find (A ++ B) m = Py.find A m.
Proof.
  intros Hm Hne HA Hf. rewrite find_app by done.
  by rewrite (proj2 (Z.eqb_neq _ _) Hf).
Qed.

Lemma shift_found n k : 0 <= k -> shift n k = n + k.
Proof. intros Hk. unfold shift. by rewrite (proj2 (Z.eqb_neq _ _)) by lia. Qed.

Lemma slice_middle {A} (pre x rest : list A) :
  Py.slice (pre ++ x ++ rest) (Py.len pre) (Py.len pre + Py.len x) = x.
Proof.
  unfold Py.len. rewrite slice_nonneg by lia.
  rewrite Nat2Z.id, drop_app_length.
  replace (Z.to_nat (Z.of_nat (length pre) + Z.of_nat (length x)) - length pre)%nat
    with (length x) by lia.
  apply take_app_length.
Qed.

(** The lines that follow a marker's line are the content lines of the
    section. *)
Lemma line_filter_marker_line marker body :
  ~ In nl marker ->
  line_filter (marker_line marker ++ body) = content_lines (Py.split body nl).
Proof.
  intros Hm. unfold marker_line. rewrite <- app_assoc. cbn [app].
  by rewrite line_filter_closed, split_first_line, content_lines_filter.
Qed.

Lemma shift_nonneg n k : 0 <= n -> 0 <= k -> 0 <= shift n k.
Proof. intros Hn Hk. rewrite shift_found by done. lia. Qed.

Ltac marker_fact :=
  first [ assumption
        | solve [vm_compute; reflexivity]
        | solve [vm_compute; intuition discriminate]
        | discriminate ].

Ltac offset_nonneg := repeat apply shift_nonneg; unfold Py.len; lia.

Section cartridge_facts.
Variables pre G L M S : list ascii.
Hypothesis pre_lines : whole_lines pre = true.
Hypothesis G_lines : whole_lines G = true.
Hypothesis L_lines : whole_lines L = true.
Hypothesis M_lines : whole_lines M = true.
Hypothesis pre_free : absent [gfx_marker; label_marker; map_marker; sfx_marker] pre.
Hypothesis G_free : absent [label_marker; map_marker; sfx_marker] G.
Hypothesis L_free : absent [map_marker; sfx_marker] L.
Hypothesis M_free : absent [sfx_marker] M.

(** Where the four markers are found in a cartridge. *)
Lemma cartridge_offsets :
  gfx_start (cartridge pre G L M S) = Py.len pre
  /\ label_start (cartridge pre G L M S) = Py.len pre + 8 + Py.len G
  /\ map_start (cartridge pre G L M S)
     = Py.len pre + 8 + Py.len G + 10 + Py.len L
  /\ sfx_start (cartridge pre G L M S)
     = Py.len pre + 8 + Py.len G + 10 + Py.len L + 8 + Py.len M.
Proof.
  unfold absent in *.
  repeat match goal with
         | H : Forall _ (_ :: _) |- _ => apply List.Forall_cons_iff in H as [? H]
         end.
  unfold gfx_start, label_start, map_start, sfx_start, cartridge.
  change (list_ascii_of_string "__gfx__") with gfx_marker.
  change (list_ascii_of_string "__label__") with label_marker.
  change (list_ascii_of_string "__map__") with map_marker.
  change (list_ascii_of_string "__sfx__") with sfx_marker.
  repeat split.
  - rewrite find_skip, find_here by marker_fact.
    change (Py.find (marker_line gfx_marker) gfx_marker) with 0.
    rewrite shift_found by lia. lia.
  - rewrite !find_skip, find_here by marker_fact.
    change (Py.find (marker_line label_marker) label_marker) with 0.
    rewrite !shift_found by offset_nonneg.
    change (Py.len (marker_line gfx_marker)) with 8. lia.
  - rewrite !find_skip, find_here by marker_fact.
    change (Py.find (marker_line map_marker) map_marker) with 0.
    rewrite !shift_found by offset_nonneg.
    change (Py.len (marker_line gfx_marker)) with 8.
    change (Py.len (marker_line label_marker)) with 10. lia.
  - rewrite !find_skip, find_here by marker_fact.
    change (Py.find (marker_line sfx_marker) sfx_marker) with 0.
    rewrite !shift_found by offset_nonneg.
    change (Py.len (marker_line gfx_marker)) with 8.
    change (Py.len (marker_line label_marker)) with 10.
    change (Py.len (marker_line map_marker)) with 8. lia.
Qed.

Lemma cartridge_gfx_section :
  gfx_section (cartridge pre G L M S) = content_lines (Py.split G nl).
Proof.
  destruct cartridge_offsets as (Hg & Hl & Hm & Hs).
  unfold gfx_section.
  destruct (gfx_end_cases (cartridge pre G L M S)) as [(_ & _ & ->)|[[?|?] _]].
  2,3: rewrite Hl, ?Hm in *; unfold Py.len in *; lia.
  rewrite Hg, Hl.
  replace (cartridge pre G L M S)
    with (pre ++ (marker_line gfx_marker ++ G)
          ++ marker_line label_marker ++ L
          ++ marker_line map_marker ++ M ++ marker_line sfx_marker ++ S)
    by (unfold cartridge; by rewrite <- !app_assoc).
  replace (Py.len pre + 8 + Py.len G)
    with (Py.len pre + Py.len (marker_line gfx_marker ++ G))
    by (unfold Py.len; rewrite length_app; change (length (marker_line gfx_marker))
          with 8%nat; lia).
  rewrite slice_middle. apply line_filter_marker_line. marker_fact.
Qed.

Lemma cartridge_map_section :
  map_section (cartridge pre G L M S) = content_lines (Py.split M nl).
Proof.
  destruct cartridge_offsets as (Hg & Hl & Hm & Hs).
  unfold map_section.
  destruct (map_end_cases (cartridge pre G L M S)) as [[_ ->]|[? _]].
  2: rewrite Hs in *; unfold Py.len in *; lia.
  rewrite Hm, Hs.
  replace (cartridge pre G L M S)
    with ((pre ++ marker_line gfx_marker ++ G ++ marker_line label_marker ++ L)
          ++ (marker_line map_marker ++ M) ++ marker_line sfx_marker ++ S)
    by (unfold cartridge; by rewrite <- !app_assoc).
  replace (Py.len pre + 8 + Py.len G + 10 + Py.len L)
    with (Py.len (pre ++ marker_line gfx_marker ++ G ++ marker_line label_marker ++ L))
    by (unfold Py.len; rewrite !length_app;
        change (length (marker_line gfx_marker)) with 8%nat;
        change (length (marker_line label_marker)) with 10%nat; lia).
  replace (Py.len (pre ++ marker_line gfx_marker ++ G ++ marker_line label_marker ++ L)
           + 8 + Py.len M)
    with (Py.len (pre ++ marker_line gfx_marker ++ G ++ marker_line label_marker ++ L)
          + Py.len (marker_line map_marker ++ M))
    by (unfold Py.len; rewrite (length_app (marker_line map_marker));
        change (length (marker_line map_marker)) with 8%nat; lia).
  rewrite slice_middle. apply line_filter_marker_line. marker_fact.
Qed.

(** A cartridge made of whole lines, in which no marker stands before
    its own line, is converted from the lines of its gfx section and the
    lines of its map section alone: what stands before [__gfx__], the
    label section and everything from [__sfx__] on leave no trace in the
    header. *)
Theorem cartridge_sections :
  gfx_section (cartridge pre G L M S) = content_lines (Py.split G nl)
  /\ map_section (cartridge pre G L M S) = content_lines (Py.split M nl)
  /\ forall p8 out w,
       files w !! p8 = Some (cartridge pre G L M S) ->
       fst (convert_p8_to_header p8 out w) = Returned
       /\ files (snd (convert_p8_to_header p8 out w)) !! out
          = Some (header_text
                    (pixel_matrix (content_lines (Py.split G nl)))
                    (chunks16 256 (decode_map (content_lines (Py.split M nl))))).
Proof.
  split; [apply cartridge_gfx_section|]. split; [apply cartridge_map_section|].
  intros p8 out w Hfile.
  destruct cartridge_offsets as (Hg & _ & Hm & _).
  rewrite (convert_run p8 out w _ Hfile).
  - cbn [fst snd files]. rewrite lookup_insert_eq. unfold header_of.
    by rewrite cartridge_gfx_section, cartridge_map_section.
  - rewrite Hg. unfold Py.len. lia.
  - rewrite Hm. unfold Py.len. lia.
Qed.
End cartridge_facts.

Lemma cartridge_sections_witness :
  gfx_section (cartridge part_pre part_gfx part_label part_map part_sfx)
  = content_lines (Py.split part_gfx nl)
  /\ map_section (cartridge part_pre part_gfx part_label part_map part_sfx)
     = content_lines (Py.split part_map nl)
  /\ forall p8 out w,
       files w !! p8 = Some (cartridge part_pre part_gfx part_label part_map part_sfx) ->
       fst (convert_p8_to_header p8 out w) = Returned
       /\ files (snd (convert_p8_to_header p8 out w)) !! out
          = Some (header_text
                    (pixel_matrix (content_lines (Py.split part_gfx nl)))
                    (chunks16 256 (decode_map (content_lines (Py.split part_map nl))))).
Proof.
  apply (cartridge_sections part_pre part_gfx part_label part_map part_sfx);
    first [ reflexivity
          | unfold absent; repeat constructor; vm_compute; reflexivity ].
Defined.

(** ** What a run leaves alone *)

(** A call writes nothing to standard error, changes no file but the
    output file, and only adds to standard output; when the input file is
    not there it raises and the world is as it was. *)
Theorem run_frame p8 out w :
  stderr (snd (convert_p8_to_header p8 out w)) = stderr w
  /\ (forall p, p <> out ->
        files (snd (convert_p8_to_header p8 out w)) !! p = files w !! p)
  /\ (exists printed,
        stdout (snd (convert_p8_to_header p8 out w)) = stdout w ++ printed)
  /\ (files w !! p8 = None ->
      convert_p8_to_header p8 out w = (Raised (FileNotFoundError p8), w)).
Proof.
  destruct (files w !! p8) as [content|] eqn:Hfile.
  - destruct (Z.eq_dec (gfx_start content) (-1)) as [Hg|Hg];
      [|destruct (Z.eq_dec (map_start content) (-1)) as [Hm|Hm]].
    3:{ rewrite (convert_run p8 out w content Hfile Hg Hm). cbn [snd files stdout stderr].
        split; [done|]. split; [|split; [by eexists|done]].
        intros p Hp. by rewrite lookup_insert_ne. }
    all: destruct (convert_missing p8 out w content Hfile) as (section & _ & ->);
      [tauto|].
    all: cbn [snd files stdout stderr].
    all: split; [done|]; split; [done|]; split; [by eexists|done].
  - unfold convert_p8_to_header. rewrite Hfile. cbn [snd].
    split; [done|]. split; [done|]. split; [|done].
    exists []. by rewrite app_nil_r.
Qed.


(** ** Markers out of order *)

(** When [__map__] stands before [__gfx__], or [__label__] does, the
    gfx section is empty, whatever follows the [__gfx__] line, and the
    spritesheet that is written is 128 rows of zeros. *)
Theorem markers_out_of_order content :
  gfx_start content <> -1 -> map_start content <> -1 ->
  map_start content < gfx_start content
  \/ (label_start content <> -1 /\ label_start content < gfx_start content) ->
  gfx_section content = []
  /\ pixel_matrix (gfx_section content) = repeat zero_row 128
  /\ forall p8 out w,
       files w !! p8 = Some content ->
       files (snd (convert_p8_to_header p8 out w)) !! out
       = Some (header_text (repeat zero_row 128)
                           (chunks16 256 (decode_map (map_section content)))).
Proof.
  intros Hg Hm Horder.
  assert (gfx_section content = []) as Hsec.
  { unfold gfx_section.
    destruct (find_bounds content "__gfx__") as [?|Bg]; [done|].
    destruct (find_bounds content "__map__") as [?|Bm]; [done|].
    destruct (find_bounds content "__label__") as [Bl|Bl].
    all: fold (gfx_start content) in Bg; fold (map_start content) in Bm.
    all: fold (label_start content) in Bl.
    all: rewrite slice_empty; [done|].
    all: destruct (gfx_end_cases content) as [(? & ? & ->)|[? ->]]; lia. }
  split; [done|]. rewrite Hsec. split; [done|].
  intros p8 out w Hfile.
  rewrite (convert_run p8 out w content Hfile Hg Hm). cbn [snd files].
  rewrite lookup_insert_eq. unfold header_of. by rewrite Hsec.
Qed.

Lemma markers_out_of_order_witness :
  gfx_section map_first_doc = []
  /\ pixel_matrix (gfx_section map_first_doc) = repeat zero_row 128
  /\ forall p8 out w,
       files w !! p8 = Some map_first_doc ->
       files (snd (convert_p8_to_header p8 out w)) !! out
       = Some (header_text (repeat zero_row 128)
                           (chunks16 256 (decode_map (map_section map_first_doc)))).
Proof.
  apply (markers_out_of_order map_first_doc).
  - vm_compute. discriminate.
  - vm_compute. discriminate.
  - left. vm_compute. reflexivity.
Defined.

(** ** Values of the map array *)

Lemma forall_chars (P : ascii -> bool) :
  forallb P all_chars = true -> forall c, P c = true.
Proof. intros H c. rewrite forallb_forall in H. apply H, all_chars_complete. Qed.

Lemma hex_digit_not_space c : Py.is_hex_digit c = true -> Py.isspace c = false.
Proof.
  intros Hc.
  assert (implb (Py.is_hex_digit c) (negb (Py.isspace c)) = true) as H.
  { revert c Hc. intros c _. revert c. apply forall_chars. vm_compute. reflexivity. }
  rewrite Hc in H. simpl in H. by destruct (Py.isspace c).
Qed.

(** A text without white space at either end is left as it is. *)
Lemma strip_fixed s :
  Forall (fun c => Py.isspace c = false) s -> Py.strip s = s.
Proof.
  intros Hs. unfold Py.strip, Py.rstrip.
  rewrite (lstrip_fixed s) by (destruct Hs; done).
  rewrite lstrip_fixed, rev_involutive; [done|].
  apply Forall_rev in Hs. destruct Hs; done.
Qed.

Lemma hex_pair_written a b :
  Py.is_hex_digit a = true -> Py.is_hex_digit b = true ->
  render_byte (token_byte [a; b]) = "0x" ++ [lower_hex a; lower_hex b].
Proof.
  intros Ha Hb.
  assert (implb (Py.is_hex_digit a && Py.is_hex_digit b)
                (bool_decide (render_byte (token_byte [a; b])
                              = "0x" ++ [lower_hex a; lower_hex b])) = true) as H.
  { clear Ha Hb. revert a b. apply forall_char_pairs. vm_compute. reflexivity. }
  rewrite Ha, Hb in H. simpl in H. by apply bool_decide_eq_true in H.
Qed.

(** Round trip: a line of an even number of hexadecimal digits is read
    as one byte for each pair, and the digits written for those bytes,
    put together, are the line in lowercase. *)
Theorem hex_line_round_trip (line : list ascii) :
  Forall (fun c => Py.is_hex_digit c = true) line ->
  Nat.even (length line) = true ->
  length (scan_row [] line) = (length line / 2)%nat
  /\ Forall (fun b => 0 <= b <= 255) (scan_row [] line)
  /\ concat (map (fun b => drop 2 (render_byte b)) (scan_row [] line))
     = map lower_hex line.
Proof.
  intros Hhex Heven. rewrite scan_row_closed, strip_fixed.
  2:{ eapply Forall_impl; [exact Hhex|]. apply hex_digit_not_space. }
  cbn [app]. split; [by rewrite length_map, pairs_length|].
  revert Hhex Heven.
  induction line as [|a|a b r IH] using pairs_ind; intros Hhex Heven.
  - split; [constructor|done].
  - discriminate.
  - inversion Hhex as [|? ? Ha Hhex']; subst.
    inversion Hhex' as [|? ? Hb Hr]; subst.
    destruct (IH Hr) as [IHrange IHtext]; [by simpl in Heven|].
    cbn [pairs map concat]. split.
    + constructor; [|done]. rewrite token_byte_pair. unfold pair_value.
      unfold Py.is_hex_digit in Ha, Hb.
      destruct (Py.hex_digit_value a) as [x|] eqn:Ea; [|done].
      destruct (Py.hex_digit_value b) as [y|] eqn:Eb; [|done].
      apply hex_digit_value_range in Ea, Eb. lia.
    + by rewrite IHtext, hex_pair_written.
Qed.

Lemma hex_line_round_trip_witness :
  length (scan_row [] "AaBb01") = (length ("AaBb01" : list ascii) / 2)%nat
  /\ Forall (fun b => 0 <= b <= 255) (scan_row [] "AaBb01")
  /\ concat (map (fun b => drop 2 (render_byte b)) (scan_row [] "AaBb01"))
     = map lower_hex "AaBb01".
Proof.
  apply (hex_line_round_trip "AaBb01").
  - repeat constructor.
  - reflexivity.
Defined.

Lemma pairs_chars line tok :
  In tok (pairs line) -> exists a b, tok = [a; b] /\ In a line /\ In b line.
Proof.
  induction line as [|a|a b r IH] using pairs_ind; [done|done|].
  cbn [pairs]. intros [<-|Hin].
  - exists a, b. split; [done|]. split; [by left|by right; left].
  - destruct (IH Hin) as (x & y & -> & Hx & Hy).
    exists x, y. split; [done|]. split; by do 2 right.
Qed.

Lemma strip_chars line c : In c (Py.strip line) -> In c line.
Proof.
  intros Hin. destruct (strip_decomp line) as (pre & post & E & _).
  rewrite E. apply in_or_app. right. apply in_or_app. by left.
Qed.

Lemma decode_map_forall (P : Z -> Prop) sec :
  P 0 ->
  (forall line tok, In line sec -> In tok (pairs (Py.strip line)) -> P (token_byte tok)) ->
  Forall P (decode_map sec).
Proof.
  intros H0 Htok. rewrite decode_map_closed. apply Forall_app. split.
  - apply List.Forall_forall. intros b Hb. unfold scanned_bytes in Hb.
    apply in_concat in Hb as (bs & Hbs & Hb).
    apply in_map_iff in Hbs as (line & <- & Hline).
    apply in_map_iff in Hb as (tok & <- & Htk). by apply (Htok line).
  - apply List.Forall_forall. intros b Hb. by apply repeat_spec in Hb as ->.
Qed.

Lemma chunks16_forall {A} (P : A -> Prop) k (l : list A) :
  Forall P l -> Forall (Forall P) (chunks16 k l).
Proof.
  revert l. induction k as [|k IH]; intros l Hl; [constructor|].
  cbn [chunks16]. constructor; [by apply Forall_take|]. by apply IH, Forall_drop.
Qed.

Lemma pair_value_nonneg a b : a <> "-"%char -> 0 <= pair_value a b <= 255.
Proof.
  intros Ha. pose proof (pair_value_range a b) as [_ Hup]. split; [|done].
  unfold pair_value.
  destruct (Py.hex_digit_value a) as [x|] eqn:Ea;
    destruct (Py.hex_digit_value b) as [y|] eqn:Eb;
    try apply hex_digit_value_range in Ea; try apply hex_digit_value_range in Eb.
  - lia.
  - destruct (Py.int_space b); lia.
  - destruct (Ascii.eqb a "+" || Py.int_space a); [lia|].
    destruct (Ascii.eqb_spec a "-"); [done|lia].
  - lia.
Qed.

Lemma bytes_body_valid (line : list Z) :
  Forall (fun b => 0 <= b <= 255) line ->
  bytes_body line = "    " ++ Py.join "," (map (fun b => "0x" ++ two_hex b) line).
Proof.
  intros Hall. unfold bytes_body. do 2 f_equal.
  induction Hall as [|b line Hb Hall IH]; [done|].
  cbn [map]. by rewrite IH, render_byte_valid.
Qed.

(** When no line of the map section holds a minus sign, every byte is
    from 0 to 255 and every line of the map array is written as values
    of [0x] and two lowercase hexadecimal digits. *)
Theorem map_without_minus_is_valid (map_section : list (list ascii)) :
  Forall (fun line => ~ In "-"%char line) map_section ->
  Forall (fun b => 0 <= b <= 255) (decode_map map_section)
  /\ Forall (fun line =>
               bytes_body line
               = "    " ++ Py.join "," (map (fun b => "0x" ++ two_hex b) line))
            (chunks16 256 (decode_map map_section)).
Proof.
  intros Hclean.
  assert (Forall (fun b => 0 <= b <= 255) (decode_map map_section)) as Hbytes.
  { apply decode_map_forall; [lia|]. intros line tok Hline Htok.
    apply pairs_chars in Htok as (a & b & -> & Ha & _).
    rewrite token_byte_pair. apply pair_value_nonneg. intros ->.
    rewrite List.Forall_forall in Hclean. apply (Hclean line Hline).
    by apply strip_chars. }
  split; [done|].
  eapply Forall_impl; [apply (chunks16_forall _ 256 _ Hbytes)|].
  intros line Hline. by apply bytes_body_valid.
Qed.

Lemma map_without_minus_is_valid_witness :
  Forall (fun b => 0 <= b <= 255)
         (decode_map [("aabbc" : list ascii); ("+5 7" : list ascii)])
  /\ Forall (fun line =>
               bytes_body line
               = "    " ++ Py.join "," (map (fun b => "0x" ++ two_hex b) line))
            (chunks16 256 (decode_map [("aabbc" : list ascii); ("+5 7" : list ascii)])).
Proof.
  apply (map_without_minus_is_valid [("aabbc" : list ascii); ("+5 7" : list ascii)]).
  repeat constructor; vm_compute; intuition discriminate.
Defined.

(** ** Sizes and limits *)

(** A gfx section of exactly 128 lines of 128 characters is written
    without padding, character for character; a map section that gives
    exactly 4096 bytes is written whole, with no byte added. *)
Theorem exact_sizes_unpadded (gfx map_lines : list (list ascii)) :
  length gfx = 128%nat -> Forall (fun row => length row = 128%nat) gfx ->
  length (scanned_bytes map_lines) = 4096%nat ->
  pixel_matrix gfx = map (map decode_pixel) gfx
  /\ decode_map map_lines = scanned_bytes map_lines
  /\ concat (chunks16 256 (decode_map map_lines)) = scanned_bytes map_lines.
Proof.
  intros Hrows Hcols Hbytes.
  assert (decode_map map_lines = scanned_bytes map_lines) as Hmap.
  { rewrite decode_map_closed, Hbytes. change (4096 - 4096)%nat with O.
    apply app_nil_r. }
  split; [|split; [done|]].
  - unfold pixel_matrix. rewrite Hrows, take_ge by lia.
    change (128 - 128)%nat with O. cbn [repeat]. rewrite app_nil_r.
    apply map_ext_in. intros row Hrow.
    rewrite List.Forall_forall in Hcols. specialize (Hcols row Hrow).
    unfold pixel_row. rewrite take_ge by lia. rewrite Hcols.
    change (128 - 128)%nat with O. apply app_nil_r.
  - rewrite chunks16_concat, Hmap. apply take_ge.
    change (16 * 256)%nat with 4096%nat. lia.
Qed.

Lemma exact_sizes_unpadded_witness :
  pixel_matrix full_gfx = map (map decode_pixel) full_gfx
  /\ decode_map full_map = scanned_bytes full_map
  /\ concat (chunks16 256 (decode_map full_map)) = scanned_bytes full_map.
Proof.
  apply (exact_sizes_unpadded full_gfx full_map).
  - vm_compute. reflexivity.
  - apply List.Forall_forall. intros row Hrow.
    apply repeat_spec in Hrow as ->. apply repeat_length.
  - vm_compute. reflexivity.
Defined.

Lemma chunks16_take {A} k (l : list A) :
  chunks16 k l = chunks16 k (take (16 * k) l).
Proof.
  revert l. induction k as [|k IH]; intros l; [done|].
  cbn [chunks16]. f_equal.
  - rewrite take_take. f_equal. lia.
  - rewrite IH, (IH (drop 16 _)). f_equal.
    replace (16 * S k)%nat with (16 + 16 * k)%nat by lia.
    rewrite (take_drop_commute l). symmetry. apply take_ge.
    rewrite length_drop, length_take. lia.
Qed.

Lemma scanned_bytes_app a b :
  scanned_bytes (a ++ b) = scanned_bytes a ++ scanned_bytes b.
Proof. unfold scanned_bytes. by rewrite map_app, concat_app. Qed.

(** What lies beyond the limits never reaches the header: the characters
    of a row after the first 128, the lines of the gfx section after the
    first 128, and the lines of the map section that follow lines which
    already give 4096 bytes. *)
Theorem beyond_limits_ignored :
  (forall row extra,
      (128 <= length row)%nat -> row_pixels (row ++ extra) = row_pixels row)
  /\ (forall gfx extra,
        (128 <= length gfx)%nat -> pixel_matrix (gfx ++ extra) = pixel_matrix gfx)
  /\ (forall map_lines extra,
        (4096 <= length (scanned_bytes map_lines))%nat ->
        chunks16 256 (decode_map (map_lines ++ extra))
        = chunks16 256 (decode_map map_lines)).
Proof.
  split; [|split].
  - intros row extra Hrow. rewrite !row_pixels_closed. unfold pixel_row.
    by rewrite take_app_le by lia.
  - intros gfx extra Hgfx. unfold pixel_matrix.
    rewrite take_app_le by lia. rewrite length_app.
    replace (128 - (length gfx + length extra))%nat with O by lia.
    replace (128 - length gfx)%nat with O by lia. done.
  - intros map_lines extra Hlen.
    rewrite chunks16_take, (chunks16_take _ (decode_map map_lines)).
    f_equal. rewrite !decode_map_closed, scanned_bytes_app.
    change (16 * 256)%nat with 4096%nat.
    rewrite <- !app_assoc. by rewrite !take_app_le by lia.
Qed.

(** ** The lines of the header *)

Lemma line_count_app a b : line_count (a ++ b) = (line_count a + line_count b)%nat.
Proof. apply count_occ_app. Qed.

Lemma join_no_newline sep parts :
  line_count sep = O -> Forall (fun p => line_count p = O) parts ->
  line_count (Py.join sep parts) = O.
Proof.
  intros Hsep Hparts. induction Hparts as [|p parts Hp Hparts IH]; [done|].
  destruct parts as [|q parts]; [done|].
  change (Py.join sep (p :: q :: parts)) with (p ++ sep ++ Py.join sep (q :: parts)).
  rewrite !line_count_app, Hp, Hsep, IH. done.
Qed.

Lemma join_lines_count bodies :
  bodies <> [] -> Forall (fun b => line_count b = O) bodies ->
  line_count (Py.join ("," ++ [nl]) bodies ++ [nl]) = length bodies.
Proof.
  intros Hne Hall. induction Hall as [|b bodies Hb Hall IH]; [done|].
  destruct bodies as [|b' bodies].
  - cbn [Py.join length]. by rewrite line_count_app, Hb.
  - assert (line_count ("," ++ [nl]) = 1%nat) as Hsep by reflexivity.
    revert Hsep IH. generalize ("," ++ [nl] : list ascii). intros sep Hsep IH.
    change (Py.join sep (b :: b' :: bodies))
      with (b ++ sep ++ Py.join sep (b' :: bodies)).
    rewrite <- !app_assoc, !line_count_app, Hb, Hsep.
    rewrite <- line_count_app, IH by done. reflexivity.
Qed.

Lemma str_no_newline px : palette_index px -> line_count px = O.
Proof.
  intros (v & Hv & ->).
  assert (forallb (fun n => Nat.eqb (line_count (Py.str (Z.of_nat n))) 0) (seq 0 16)
          = true) as Hall by (vm_compute; reflexivity).
  rewrite forallb_forall in Hall.
  assert (In (Z.to_nat v) (seq 0 16)) as Hin by (apply in_seq; lia).
  apply Hall in Hin. rewrite Z2Nat.id in Hin by lia. by apply Nat.eqb_eq in Hin.
Qed.

Lemma render_byte_no_newline b : -15 <= b <= 255 -> line_count (render_byte b) = O.
Proof.
  intros Hb.
  assert (forallb (fun n => Nat.eqb (line_count (render_byte (Z.of_nat n - 15))) 0)
                  (seq 0 271) = true) as Hall by (vm_compute; reflexivity).
  rewrite forallb_forall in Hall.
  assert (In (Z.to_nat (b + 15)) (seq 0 271)) as Hin by (apply in_seq; lia).
  apply Hall in Hin. rewrite Z2Nat.id in Hin by lia.
  replace (b + 15 - 15) with b in Hin by lia. by apply Nat.eqb_eq in Hin.
Qed.

Lemma decode_map_range sec : Forall (fun b => -15 <= b <= 255) (decode_map sec).
Proof.
  apply decode_map_forall; [lia|]. intros line tok _ Htok.
  apply pairs_chars in Htok as (a & b & -> & _).
  rewrite token_byte_pair. apply pair_value_range.
Qed.

Lemma render_rows_count rows :
  rows <> [] -> Forall (Forall palette_index) rows ->
  line_count (render_rows rows) = length rows.
Proof.
  intros Hne Hrows. unfold render_rows.
  rewrite join_lines_count, length_map; [done| |].
  - by destruct rows.
  - apply List.Forall_forall. intros body Hbody.
    apply in_map_iff in Hbody as (row & <- & Hrow).
    rewrite List.Forall_forall in Hrows. specialize (Hrows row Hrow).
    unfold row_body. rewrite !line_count_app, join_no_newline; [done|done|].
    eapply Forall_impl; [exact Hrows|]. apply str_no_newline.
Qed.

Lemma render_lines_count lines :
  lines <> [] -> Forall (Forall (fun b => -15 <= b <= 255)) lines ->
  line_count (render_lines lines) = length lines.
Proof.
  intros Hne Hlines. unfold render_lines.
  rewrite join_lines_count, length_map; [done| |].
  - by destruct lines.
  - apply List.Forall_forall. intros body Hbody.
    apply in_map_iff in Hbody as (line & <- & Hline).
    rewrite List.Forall_forall in Hlines. specialize (Hlines line Hline).
    unfold bytes_body. rewrite line_count_app, join_no_newline; [done|done|].
    apply List.Forall_forall. intros v Hv.
    apply in_map_iff in Hv as (b & <- & Hb).
    rewrite List.Forall_forall in Hlines. by apply render_byte_no_newline, Hlines.
Qed.

(** Whatever the document, the header has 403 lines: 12 before the rows
    of pixels, the 128 rows, 4 between the two arrays, the 256 lines of
    the map and 3 after them; no value that is written holds a newline. *)
Theorem header_line_count (content : list ascii) :
  line_count (header_of content) = 403%nat
  /\ line_count (render_rows (pixel_matrix (gfx_section content))) = 128%nat
  /\ line_count (render_lines (chunks16 256 (decode_map (map_section content))))
     = 256%nat.
Proof.
  assert (line_count (render_rows (pixel_matrix (gfx_section content))) = 128%nat)
    as Hrows.
  { rewrite render_rows_count, pixel_matrix_length; [done| |apply pixel_matrix_palette].
    intros E. pose proof (pixel_matrix_length (gfx_section content)) as H.
    by rewrite E in H. }
  assert (line_count (render_lines (chunks16 256 (decode_map (map_section content))))
          = 256%nat) as Hlines.
  { rewrite render_lines_count, chunks16_length; [done| |].
    - intros E. pose proof (chunks16_length 256 (decode_map (map_section content))) as H.
      by rewrite E in H.
    - apply chunks16_forall, decode_map_range. }
  split; [|done]. unfold header_of, header_text.
  rewrite !line_count_app, Hrows, Hlines. reflexivity.
Qed.

(** ** A section after the map section *)

Lemma content_lines_app a b :
  content_lines (a ++ b) = content_lines a ++ content_lines b.
Proof. by rewrite !content_lines_filter, List.filter_app, map_app. Qed.

(** The lines of a text that ends with a newline, and how a text that
    goes on after that newline is split. *)
Lemma split_whole_lines A :
  exists h t,
    Py.split (A ++ [nl]) nl = (h :: t) ++ [[]]
    /\ forall B, Py.split (A ++ nl :: B) nl = (h :: t) ++ Py.split B nl.
Proof.
  induction A as [|c A (h & t & HX & HB)].
  - exists [], []. split; [done|]. intros B. reflexivity.
  - destruct (Ascii.eqb c nl) eqn:Hc.
    + exists [], (h :: t). cbn [app Py.split]. rewrite Hc. cbn [app] in HX.
      rewrite HX. split; [done|]. intros B. specialize (HB B). cbn [app] in HB.
      by rewrite HB.
    + exists (c :: h), t. cbn [app Py.split]. rewrite Hc. cbn [app] in HX.
      rewrite HX. split; [done|]. intros B. specialize (HB B). cbn [app] in HB.
      by rewrite HB.
Qed.

Lemma content_lines_whole_lines A B :
  whole_lines A = true ->
  content_lines (Py.split (A ++ B) nl)
  = content_lines (Py.split A nl) ++ content_lines (Py.split B nl).
Proof.
  intros HA. destruct (whole_lines_view A HA) as [->|(A' & ->)]; [done|].
  destruct (split_whole_lines A') as (h & t & HX & HB).
  rewrite <- app_assoc. cbn [app]. rewrite HB, HX, !content_lines_app.
  cbn [content_lines]. change (Py.strip []) with (@nil ascii). cbv iota.
  by rewrite app_nil_r.
Qed.

Section gff_cartridge_facts.
Variables pre G M F : list ascii.
Hypothesis pre_lines : whole_lines pre = true.
Hypothesis G_lines : whole_lines G = true.
Hypothesis M_lines : whole_lines M = true.
Hypothesis pre_free : absent [gfx_marker; label_marker; map_marker; sfx_marker] pre.
Hypothesis G_free : absent [label_marker; map_marker; sfx_marker] G.
Hypothesis M_free : absent [sfx_marker] M.
Hypothesis F_free : absent [sfx_marker] F.

Lemma gff_cartridge_offsets :
  gfx_start (gff_cartridge pre G M F) = Py.len pre
  /\ map_start (gff_cartridge pre G M F) = Py.len pre + 8 + Py.len G
  /\ sfx_start (gff_cartridge pre G M F) = -1
  /\ (label_start (gff_cartridge pre G M F) = -1
      \/ Py.len pre + 8 + Py.len G <= label_start (gff_cartridge pre G M F)).
Proof.
  unfold absent in *.
  repeat match goal with
         | H : Forall _ (_ :: _) |- _ => apply List.Forall_cons_iff in H as [? H]
         end.
  unfold gfx_start, label_start, map_start, sfx_start, gff_cartridge.
  change (list_ascii_of_string "__gfx__") with gfx_marker.
  change (list_ascii_of_string "__label__") with label_marker.
  change (list_ascii_of_string "__map__") with map_marker.
  change (list_ascii_of_string "__sfx__") with sfx_marker.
  split; [|split; [|split]].
  - rewrite find_skip, find_here by marker_fact.
    change (Py.find (marker_line gfx_marker) gfx_marker) with 0.
    rewrite shift_found by lia. lia.
  - rewrite !find_skip, find_here by marker_fact.
    change (Py.find (marker_line map_marker) map_marker) with 0.
    rewrite !shift_found by offset_nonneg.
    change (Py.len (marker_line gfx_marker)) with 8. lia.
  - rewrite !find_skip by marker_fact.
    match goal with H : Py.find F sfx_marker = -1 |- _ => rewrite H end.
    reflexivity.
  - rewrite !find_skip by marker_fact.
    match goal with |- context [Py.find ?rest label_marker] =>
      destruct (find_bounds rest label_marker) as [->|Hb]
    end.
    + left. reflexivity.
    + right. rewrite !shift_found by offset_nonneg.
      change (Py.len (marker_line gfx_marker)) with 8. unfold Py.len in *. lia.
Qed.

(** The comment in the source says that the map data ends at [__sfx__],
    at [__gff__] or at the end, but the program looks for [__sfx__] only:
    in a cartridge without [__sfx__] the lines of a [__gff__] section
    that follows the map section are read as map data, after the lines
    of the map section. *)
Theorem gff_lines_read_as_map :
  gfx_section (gff_cartridge pre G M F) = content_lines (Py.split G nl)
  /\ map_section (gff_cartridge pre G M F)
     = content_lines (Py.split M nl) ++ content_lines (Py.split F nl)
  /\ decode_map (map_section (gff_cartridge pre G M F))
     = pad_while (scanned_bytes (content_lines (Py.split M nl))
                  ++ scanned_bytes (content_lines (Py.split F nl))) 4096 0.
Proof.
  destruct gff_cartridge_offsets as (Hg & Hm & Hs & Hl).
  assert (map_section (gff_cartridge pre G M F)
          = content_lines (Py.split M nl) ++ content_lines (Py.split F nl)) as Hmap.
  { unfold map_section.
    destruct (map_end_cases (gff_cartridge pre G M F)) as [[? _]|[_ ->]]; [done|].
    rewrite Hm.
    replace (gff_cartridge pre G M F)
      with ((pre ++ marker_line gfx_marker ++ G)
            ++ (marker_line map_marker ++ M ++ marker_line gff_marker ++ F) ++ [])
      by (unfold gff_cartridge; by rewrite app_nil_r, <- !app_assoc).
    replace (Py.len pre + 8 + Py.len G)
      with (Py.len (pre ++ marker_line gfx_marker ++ G))
      by (unfold Py.len; rewrite !length_app;
          change (length (marker_line gfx_marker)) with 8%nat; lia).
    replace (Py.len ((pre ++ marker_line gfx_marker ++ G)
                     ++ (marker_line map_marker ++ M ++ marker_line gff_marker ++ F)
                     ++ []))
      with (Py.len (pre ++ marker_line gfx_marker ++ G)
            + Py.len (marker_line map_marker ++ M ++ marker_line gff_marker ++ F))
      by (unfold Py.len; rewrite app_nil_r, (length_app (pre ++ _)); lia).
    rewrite slice_middle, line_filter_marker_line by marker_fact.
    rewrite (content_lines_whole_lines M) by done.
    rewrite (content_lines_whole_lines (marker_line gff_marker)) by reflexivity.
    done. }
  split; [|split; [done|]].
  - unfold gfx_section.
    destruct (gfx_end_cases (gff_cartridge pre G M F)) as [(? & ? & _)|[_ ->]].
    { rewrite Hm in *. lia. }
    rewrite Hg, Hm.
    replace (gff_cartridge pre G M F)
      with (pre ++ (marker_line gfx_marker ++ G)
            ++ marker_line map_marker ++ M ++ marker_line gff_marker ++ F)
      by (unfold gff_cartridge; by rewrite <- !app_assoc).
    replace (Py.len pre + 8 + Py.len G)
      with (Py.len pre + Py.len (marker_line gfx_marker ++ G))
      by (unfold Py.len; rewrite length_app;
          change (length (marker_line gfx_marker)) with 8%nat; lia).
    rewrite slice_middle. apply line_filter_marker_line. marker_fact.
  - rewrite Hmap. unfold decode_map.
    by rewrite fold_scan_rows, scanned_bytes_app.
Qed.
End gff_cartridge_facts.

Lemma gff_lines_read_as_map_witness :
  gfx_section (gff_cartridge part_pre part_gfx part_map ("0102" ++ [nl]))
  = content_lines (Py.split part_gfx nl)
  /\ map_section (gff_cartridge part_pre part_gfx part_map ("0102" ++ [nl]))
     = content_lines (Py.split part_map nl)
       ++ content_lines (Py.split ("0102" ++ [nl]) nl)
  /\ decode_map (map_section (gff_cartridge part_pre part_gfx part_map ("0102" ++ [nl])))
     = pad_while (scanned_bytes (content_lines (Py.split part_map nl))
                  ++ scanned_bytes (content_lines (Py.split ("0102" ++ [nl]) nl)))
                 4096 0.
Proof.
  apply (gff_lines_read_as_map part_pre part_gfx part_map ("0102" ++ [nl]));
    first [ reflexivity
          | unfold absent; repeat constructor; vm_compute; reflexivity ].
Defined.

(** In that cartridge the bytes of the map section are followed by the
    bytes of the [__gff__] section. *)
Example gff_bytes_sample :
  take 5 (decode_map (map_section
                        (gff_cartridge part_pre part_gfx part_map ("0102" ++ [nl]))))
  = [170; 187; 1; 2; 0].
Proof. vm_compute. reflexivity. Qed.
